(** * go-tagexpr/binding: request binding, shallow embedding

    The development follows the two source files of the [binding] package:
    - [func.go]: the registry of type converters ([RegTypeUnmarshal],
      [unmarshalSlice], [unsafeUnmarshalValue], the [time.Time] converter
      installed by [init]);
    - [receiver.go]: the binding plan ([receiver]), its request accessors
      ([getBody], [getPostForm], [getQuery], [getCookies]), the body
      pre-binding step ([prebindBody]) and the precomputation of diagnostic
      names and errors ([initParams]).

    Go's [reflect] is modelled by the small part of it the package uses.
    Code that runs for its effects is written in a state monad whose state
    is the package-level registry (resp. the request), with an outcome that
    distinguishes a normal return from a panic. *)

From Stdlib Require Import String Ascii List ZArith Bool Lia.
From Stdlib Require Strings.Byte.
Import ListNotations.
Local Open Scope string_scope.

(** Go's [error] values are compared by their message only. *)
Definition error := string.

(* ================================================================= *)
(** ** reflect *)

Module reflect.

(** [reflect.Kind], in the order of the Go declaration. *)
Inductive Kind : Set :=
| Invalid | Bool
| Int | Int8 | Int16 | Int32 | Int64
| Uint | Uint8 | Uint16 | Uint32 | Uint64 | Uintptr
| Float32 | Float64 | Complex64 | Complex128
| Array | Chan | Func | Interface | Map | Ptr | Slice
| String | Struct | UnsafePointer.

(** [reflect.Type], by identity.  A predeclared type ([string], [int],
    ...) is identified by its kind; a defined type by its package and name
    (the kind of its underlying type is kept, as [Kind()] reports it);
    pointer and slice types by their element type. *)
Inductive rtype : Set :=
| Predeclared (k : Kind)
| Defined (pkgPath name : string) (k : Kind)
| PtrTo (elem : rtype)
| SliceOf (elem : rtype).

Definition Kind_eq_dec (a b : Kind) : {a = b} + {a <> b}.
Proof. decide equality. Defined.

Definition rtype_eq_dec (a b : rtype) : {a = b} + {a <> b}.
Proof. decide equality; try apply Kind_eq_dec; apply string_dec. Defined.

(** [t == u] on [reflect.Type]. *)
Definition rtype_eqb (a b : rtype) : bool :=
  if rtype_eq_dec a b then true else false.

(** [t.Kind()]. *)
Definition rtype_Kind (t : rtype) : Kind :=
  match t with
  | Predeclared k => k
  | Defined _ _ k => k
  | PtrTo _ => Ptr
  | SliceOf _ => Slice
  end.

Definition Kind_String (k : Kind) : string :=
  match k with
  | Invalid => "invalid" | Bool => "bool"
  | Int => "int" | Int8 => "int8" | Int16 => "int16" | Int32 => "int32"
  | Int64 => "int64"
  | Uint => "uint" | Uint8 => "uint8" | Uint16 => "uint16"
  | Uint32 => "uint32" | Uint64 => "uint64" | Uintptr => "uintptr"
  | Float32 => "float32" | Float64 => "float64"
  | Complex64 => "complex64" | Complex128 => "complex128"
  | Array => "array" | Chan => "chan" | Func => "func"
  | Interface => "interface" | Map => "map" | Ptr => "ptr"
  | Slice => "slice" | String => "string" | Struct => "struct"
  | UnsafePointer => "unsafe.Pointer"
  end.

(** [t.String()]. *)
Fixpoint rtype_String (t : rtype) : string :=
  match t with
  | Predeclared k => Kind_String k
  | Defined pkg name _ => pkg ++ "." ++ name
  | PtrTo e => "*" ++ rtype_String e
  | SliceOf e => "[]" ++ rtype_String e
  end.

(** [reflect.Value] carrying payloads of type [D].  [Zero] is the zero
    [reflect.Value{}], which holds nothing and has no type. *)
#[warnings="-register-all"]
Inductive Value (D : Type) : Type :=
| Zero
| Of (t : rtype) (x : D)
| SliceVal (elem : rtype) (xs : list (Value D)).

Arguments Zero {D}.
Arguments Of {D} t x.
Arguments SliceVal {D} elem xs.

(** [v.Type()]; [None] where Go panics (the zero Value). *)
Definition Value_Type {D} (v : Value D) : option rtype :=
  match v with
  | Zero => None
  | Of t _ => Some t
  | SliceVal e _ => Some (SliceOf e)
  end.

(** [reflect.New(reflect.SliceOf(t)).Elem()]: the nil slice of [t]. *)
Definition NewSlice {D} (t : rtype) : Value D := SliceVal t [].

(** [reflect.Append(v, vv)]; [None] where Go panics: [v] is not a slice,
    or [vv] cannot be assigned to the element type (for the concrete
    types converters are written for, assignable means of that type). *)
Definition Append {D} (v vv : Value D) : option (Value D) :=
  match v with
  | SliceVal e xs =>
      match Value_Type vv with
      | Some tv => if rtype_eqb tv e then Some (SliceVal e (xs ++ [vv])) else None
      | None => None
      end
  | _ => None
  end.

(** [v.Set(vv)] on the addressable [v], giving what [v] holds afterwards;
    [None] where Go panics: [vv] is the zero Value or is not assignable to
    the type of [v]. *)
Definition Value_Set {D} (v vv : Value D) : option (Value D) :=
  match Value_Type v, Value_Type vv with
  | Some t, Some tv => if rtype_eqb tv t then Some vv else None
  | _, _ => None
  end.

End reflect.

(* ================================================================= *)
(** ** func.go *)

Module func.
Import reflect.

(** What a computation does: return normally or panic. *)
Inductive outcome (A : Type) : Type :=
| Returns (a : A)
| Panics (msg : string).
Arguments Returns {A} a.
Arguments Panics {A} msg.

Section Registry.
Context {D : Type}.

(** [func(v string, emptyAsZero bool) (reflect.Value, error)]. *)
Definition converter : Type := string -> bool -> Value D * option error.

(** The package-level state: the registry [typeUnmarshalFuncs] (a Go map
    read with its zero value, [nil], on a missing key) and the record of
    the converter invocations made so far, oldest first. *)
Record World : Type := mkWorld {
  typeUnmarshalFuncs : rtype -> option converter;
  invoked : list (string * bool)
}.

(** The world at program start: [make(map[reflect.Type]func...)], and no
    converter run yet. *)
Definition emptyWorld : World := mkWorld (fun _ => None) [].

Definition M (A : Type) : Type := World -> outcome A * World.

Definition ret {A} (a : A) : M A := fun w => (Returns a, w).

Definition bind {A B} (m : M A) (k : A -> M B) : M B :=
  fun w =>
    match m w with
    | (Returns a, w') => k a w'
    | (Panics msg, w') => (Panics msg, w')
    end.

Definition panic {A} (msg : string) : M A := fun w => (Panics msg, w).

(** Calling a converter: the call is recorded. *)
Definition call (fn : converter) (s : string) (b : bool)
  : M (Value D * option error) :=
  fun w =>
    (Returns (fn s b),
     mkWorld (typeUnmarshalFuncs w) (invoked w ++ [(s, b)])).

(** [typeUnmarshalFuncs[t]]. *)
Definition lookupFunc (t : rtype) : M (option converter) :=
  fun w => (Returns (typeUnmarshalFuncs w t), w).

(** [typeUnmarshalFuncs[t] = fn]. *)
Definition storeFunc (t : rtype) (fn : converter) : M unit :=
  fun w =>
    (Returns tt,
     mkWorld (fun u => if rtype_eqb u t then Some fn
                       else typeUnmarshalFuncs w u)
             (invoked w)).

(** An operation of [reflect] that panics where the model has [None]. *)
Definition orPanic {A} (msg : string) (o : option A) : M A :=
  match o with
  | Some a => ret a
  | None => panic msg
  end.

End Registry.

Arguments World D : clear implicits.
Arguments emptyWorld D : clear implicits.
Arguments M D A : clear implicits.
Arguments converter D : clear implicits.

Declare Scope go_scope.
Delimit Scope go_scope with go.
Notation "x <- m ;; k" := (bind m (fun x => k))
  (at level 100, m at next level, right associativity) : go_scope.
Notation "m ;;; k" := (bind m (fun _ => k))
  (at level 100, right associativity) : go_scope.
Local Open Scope go_scope.

(** [kindTypeMap]. *)
Definition kindTypeMap (k : Kind) : option rtype :=
  match k with
  | String => Some (Predeclared String)
  | Bool => Some (Predeclared Bool)
  | Float32 => Some (Predeclared Float32)
  | Float64 => Some (Predeclared Float64)
  | Int => Some (Predeclared Int)
  | Int64 => Some (Predeclared Int64)
  | Int32 => Some (Predeclared Int32)
  | Int16 => Some (Predeclared Int16)
  | Int8 => Some (Predeclared Int8)
  | Uint => Some (Predeclared Uint)
  | Uint64 => Some (Predeclared Uint64)
  | Uint32 => Some (Predeclared Uint32)
  | Uint16 => Some (Predeclared Uint16)
  | Uint8 => Some (Predeclared Uint8)
  | _ => None
  end.

Section Funcs.
Context {D : Type}.

(** [RegTypeUnmarshal]: the kind check, the self-test, the store. *)
Definition RegTypeUnmarshal (t : rtype) (fn : converter D)
  : M D (option error) :=
  let test : M D (option error) :=
    r <- call fn "" true ;;
    match snd r with
    | Some err => ret (Some ("test fail: " ++ err))
    | None =>
        tt' <- orPanic "reflect: call of reflect.Value.Type on zero Value"
                       (Value_Type (fst r)) ;;
        if negb (rtype_eqb tt' t) then
          ret (Some ("test fail: expect return value type is "
                     ++ rtype_String t ++ ", but got " ++ rtype_String tt'))
        else
          (storeFunc t fn ;;; ret None)
    end in
  match rtype_Kind t with
  | String | Bool
  | Float32 | Float64
  | Int | Int64 | Int32 | Int16 | Int8
  | Uint | Uint64 | Uint32 | Uint16 | Uint8 =>
      match kindTypeMap (rtype_Kind t) with
      | None => ret (Some "basic type not supported in map")
      | Some otherType =>
          if rtype_eqb t otherType
          then ret (Some "registration type cannot be a basic type")
          else test
      end
  | Ptr => ret (Some "registration type cannot be a pointer type")
  | _ => test
  end.

(** [MustRegTypeUnmarshal]: panics on a registration error. *)
Definition MustRegTypeUnmarshal (t : rtype) (fn : converter D) : M D unit :=
  err <- RegTypeUnmarshal t fn ;;
  match err with
  | Some e => panic e
  | None => ret tt
  end.

(** The loop of [unmarshalSlice], [v] being the slice built so far. *)
Fixpoint unmarshalSlice_range (fn : converter D) (a : list string)
         (looseZeroMode : bool) (v : Value D)
  : M D (Value D * option error) :=
  match a with
  | [] => ret (v, None)
  | s :: rest =>
      r <- call fn s looseZeroMode ;;
      match snd r with
      | Some err => ret (v, Some err)
      | None =>
          v' <- orPanic "reflect.Append: value is not assignable"
                        (Append v (fst r)) ;;
          unmarshalSlice_range fn rest looseZeroMode v'
      end
  end.

(** [unmarshalSlice]. *)
Definition unmarshalSlice (fn : converter D) (t : rtype) (a : list string)
           (looseZeroMode : bool) : M D (Value D * option error) :=
  unmarshalSlice_range fn a looseZeroMode (NewSlice t).

(** What [unmarshal] dispatches on and to, all of it outside the package:
    whether the pointer to the value implements [json.Unmarshaler], resp.
    [proto.Unmarshaler], the two methods, and [encoding/json.Unmarshal].  A
    decoder is given the bytes and the value, and yields what the value
    holds afterwards and its error. *)
Record Decoders : Type := mkDecoders {
  isJSONUnmarshaler : Value D -> bool;
  UnmarshalJSON : string -> Value D -> Value D * option error;
  isProtoUnmarshaler : Value D -> bool;
  Unmarshal : string -> Value D -> Value D * option error;
  jsonpkg_Unmarshal : string -> Value D -> Value D * option error
}.

Variable dec : Decoders.

(** [unmarshal]: the type switch, its cases in order. *)
Definition unmarshal (b : string) (i : Value D) : Value D * option error :=
  if isJSONUnmarshaler dec i then UnmarshalJSON dec b i
  else if isProtoUnmarshaler dec i then Unmarshal dec b i
  else jsonpkg_Unmarshal dec b i.

(** [unsafeUnmarshalValue]: the result is what [v] holds afterwards, with
    the error returned. *)
Definition unsafeUnmarshalValue (v : Value D) (s : string)
           (looseZeroMode : bool) : M D (Value D * option error) :=
  t <- orPanic "reflect: call of reflect.Value.Type on zero Value"
               (Value_Type v) ;;
  fn <- lookupFunc t ;;
  match fn with
  | Some fn =>
      r <- call fn s looseZeroMode ;;
      match snd r with
      | None =>
          v' <- orPanic "reflect.Set: value is not assignable"
                        (Value_Set v (fst r)) ;;
          ret (v', None)
      | Some err => ret (v, Some err)
      end
  | None => ret (unmarshal s v)
  end.

End Funcs.

Section TimeConverter.
(** [time.Time], its zero value [time.Time{}] and [time.Parse(time.RFC3339, _)]
    belong to Go's standard library; [ofTime] is how a time is carried by a
    [reflect.Value]. *)
Variable Time : Type.
Variable zeroTime : Time.
Variable parseRFC3339 : string -> Time + error.
Context {D : Type}.
Variable ofTime : Time -> D.

(** [reflect.TypeOf(time.Time{})]. *)
Definition timeType : rtype := Defined "time" "Time" Struct.

(** [reflect.ValueOf(t)] for a time [t]. *)
Definition ValueOfTime (t : Time) : Value D := Of timeType (ofTime t).

(** The function literal registered by [init]. *)
Definition timeUnmarshal : converter D :=
  fun v emptyAsZero =>
    if (v =? "") && emptyAsZero then (ValueOfTime zeroTime, None)
    else
      match parseRFC3339 v with
      | inr err => (Zero, Some err)
      | inl t => (ValueOfTime t, None)
      end.

(** [init]. *)
Definition init : M D unit := MustRegTypeUnmarshal timeType timeUnmarshal.

End TimeConverter.

End func.


(* ================================================================= *)
(** ** receiver.go *)

Module recv.

(** [type in uint8] and its constants. *)
Inductive in_ : Set :=
| auto | path | query | header | cookie | rawBody | form | json | protobuf.

(** The [iota] value of each constant. *)
Definition in_value (i : in_) : N :=
  match i with
  | auto => 0 | path => 1 | query => 2 | header => 3 | cookie => 4
  | rawBody => 5 | form => 6 | json => 7 | protobuf => 8
  end%N.

Definition maxIn : N := 9.

Definition allIn : list in_ :=
  [auto; path; query; header; cookie; rawBody; form; json; protobuf].

Definition in_eq_dec (a b : in_) : {a = b} + {a <> b}.
Proof. decide equality. Defined.

Definition in_eqb (a b : in_) : bool := if in_eq_dec a b then true else false.

(** [type codec in]: [bodyUnsupport = codec(0)], which is the value of [auto]. *)
Definition codec : Set := in_.
Definition bodyUnsupport : codec := auto.
Definition bodyForm : codec := form.
Definition bodyJSON : codec := json.
Definition bodyProtobuf : codec := protobuf.

(** Modelled from the spec: [binding.Error], declared outside the files at
    hand, is the BoundError "{ category tag, FieldPath or qualified name,
    human message }"; the field names are those [TestJSON] uses. *)
Record Error : Set := mkError {
  ErrType : string;
  FailField : string;
  Msg : string
}.

(** The part of [reflect.StructField] the receiver reads. *)
Record StructField : Set := mkStructField {
  Name : string;
  Anonymous : bool
}.

(** Modelled from the spec: [tagInfo], one source annotation of a field, is
    declared outside the files at hand.  It has the fields [initParams]
    reads and writes, and of the FieldDescriptor "{ ..., declared
    SourceKind, source key name, ..., required flag, ... }" the key name and
    the required flag.  A nil error is [None]. *)
Record tagInfo : Set := mkTagInfo {
  paramIn : in_;
  paramName : string;
  required : bool;
  namePath : string;
  requiredError : option Error;
  typeError : option Error;
  cannotError : option Error;
  contentTypeError : option Error
}.

(** Modelled from the spec: [paramInfo], the descriptor of a field, is
    declared outside the files at hand; these are the fields the receiver
    reads and writes. *)
Record paramInfo : Type := mkParamInfo {
  fieldSelector : string;
  structField : StructField;
  tagInfos : list tagInfo;
  bindErrFactory : string -> string -> Error
}.

Record receiver : Type := mkReceiver {
  hasQuery : bool;
  hasCookie : bool;
  hasPath : bool;
  hasBody : bool;
  hasVd : bool;
  params : list paramInfo
}.

(** [getParam]: [None] is the nil pointer. *)
Fixpoint getParam_range (ps : list paramInfo) (sel : string) : option paramInfo :=
  match ps with
  | [] => None
  | p :: rest =>
      if fieldSelector p =? sel then Some p else getParam_range rest sel
  end.

Definition getParam (r : receiver) (sel : string) : option paramInfo :=
  getParam_range (params r) sel.

(** [getOrAddParam], the field handler given by its selector and field. *)
Definition getOrAddParam (r : receiver) (sel : string) (sf : StructField)
           (factory : string -> string -> Error) : paramInfo * receiver :=
  match getParam r sel with
  | Some p => (p, r)
  | None =>
      let p := mkParamInfo sel sf [] factory in
      (p, mkReceiver (hasQuery r) (hasCookie r) (hasPath r) (hasBody r)
                     (hasVd r) (params r ++ [p]))
  end.

(* ----------------------------------------------------------------- *)
(** *** The request and its accessors *)

(** [url.Values]: keys with their ordered values.  A nil map is [None], a
    nil slice is the empty list. *)
Definition Values : Set := list (string * list string).

Record Cookie : Set := mkCookie {
  cookieName : string;
  cookieValue : string
}.

(** What of the request a helper touched. *)
Inductive access : Set :=
| QueryParsed     (* req.URL.Query() *)
| CookiesParsed   (* req.Cookies() *)
| BodyRead        (* the body stream read to its end *)
| FormParsed.     (* req.ParseMultipartForm *)

(** [*http.Request], as far as the receiver uses it: what its parts parse
    to, the two form fields that parsing fills in, and the accesses made. *)
Record Request : Set := mkRequest {
  urlQuery : Values;
  cookies : list Cookie;
  bodyStream : list Byte.byte * option error;
  parsedForm : Values * Values;
  Form : option Values;
  PostForm : option Values;
  touched : list access
}.

Definition touch (a : access) (req : Request) : Request :=
  mkRequest (urlQuery req) (cookies req) (bodyStream req) (parsedForm req)
            (Form req) (PostForm req) (touched req ++ [a]).

(** Modelled from the spec: [copyBody], declared outside the files at hand,
    is the raw body accessor "readAll() -> (bytes, error)"; it reads the
    body stream of the request. *)
Definition copyBody (req : Request) : (list Byte.byte * option error) * Request :=
  (bodyStream req, touch BodyRead req).

(** [req.ParseMultipartForm(defaultMaxMemory)] fills [Form] and [PostForm]. *)
Definition defaultMaxMemory : N := N.shiftl 32 20.

Definition ParseMultipartForm (maxMemory : N) (req : Request) : Request :=
  touch FormParsed
        (mkRequest (urlQuery req) (cookies req) (bodyStream req)
                   (parsedForm req) (Some (fst (parsedForm req)))
                   (Some (snd (parsedForm req))) (touched req)).

(** [req.URL.Query()] and [req.Cookies()]. *)
Definition URL_Query (req : Request) : Values * Request :=
  (urlQuery req, touch QueryParsed req).

Definition Cookies (req : Request) : list Cookie * Request :=
  (cookies req, touch CookiesParsed req).

(** [goutil.BytesToString]. *)
Definition BytesToString (b : list Byte.byte) : string := string_of_list_byte b.

(** [getBody]: bytes, string, error; with the request afterwards. *)
Definition getBody (r : receiver) (req : Request)
  : (list Byte.byte * string * option error) * Request :=
  if hasBody r then
    let '((bodyBytes, err), req') := copyBody req in
    match err with
    | None => ((bodyBytes, BytesToString bodyBytes, None), req')
    | Some _ => ((bodyBytes, "", None), req')
    end
  else (([], "", None), req).

(** [getPostForm]. *)
Definition getPostForm (r : receiver) (req : Request) (bodyCodec : codec)
  : (option Values * option error) * Request :=
  if in_eqb bodyCodec bodyForm && hasBody r then
    let req' :=
      match PostForm req with
      | None => ParseMultipartForm defaultMaxMemory req
      | Some _ => req
      end in
    ((Form req', None), req')
  else ((None, None), req).

(** [getQuery]. *)
Definition getQuery (r : receiver) (req : Request) : option Values * Request :=
  if hasQuery r then
    let '(v, req') := URL_Query req in (Some v, req')
  else (None, req).

(** [getCookies]. *)
Definition getCookies (r : receiver) (req : Request)
  : list Cookie * Request :=
  if hasCookie r then Cookies req else ([], req).

(* ----------------------------------------------------------------- *)
(** *** Pre-binding the body *)

Section Prebind.
(** The record being bound, [structPointer] and [value] being two views of
    it: whether it implements [proto.Message], what it holds, and which
    decoders ran on it. *)
Variable T : Type.

Record Target : Type := mkTarget {
  isProtoMessage : bool;
  content : T;
  decodedBy : list codec
}.

(** [jsonparam.Assign(gjson.Parse(s), value)] and [proto.Unmarshal(b, msg)]
    are the external body decoders. *)
Variable jsonAssign : string -> T -> T.
Variable protoUnmarshal : list Byte.byte -> T -> T * option error.

(** [prebindBody]: the error, with the record afterwards. *)
Definition prebindBody (tgt : Target) (bodyCodec : codec)
           (bodyBytes : list Byte.byte) : option error * Target :=
  match bodyCodec with
  | json =>
      (None,
       mkTarget (isProtoMessage tgt)
                (jsonAssign (BytesToString bodyBytes) (content tgt))
                (decodedBy tgt ++ [bodyJSON]))
  | protobuf =>
      if negb (isProtoMessage tgt) then
        (Some "protobuf content type is not supported", tgt)
      else
        let '(c, err) := protoUnmarshal bodyBytes (content tgt) in
        let tgt' := mkTarget (isProtoMessage tgt) c
                             (decodedBy tgt ++ [bodyProtobuf]) in
        match err with
        | Some e => (Some e, tgt')
        | None => (None, tgt')
        end
  | _ => (None, tgt)
  end.

End Prebind.

Arguments isProtoMessage {T} t.
Arguments content {T} t.
Arguments decodedBy {T} t.
Arguments mkTarget {T} _ _ _.
Arguments prebindBody {T} jsonAssign protoUnmarshal tgt bodyCodec bodyBytes.

(* ----------------------------------------------------------------- *)
(** *** Field selectors *)

(** [strings.Split(s, ".")]: the text between the dots, in order. *)
Fixpoint strings_Split (s : string) : list string :=
  match s with
  | EmptyString => [""]
  | String.String c rest =>
      if Ascii.eqb c "." then "" :: strings_Split rest
      else
        match strings_Split rest with
        | seg :: segs => String.String c seg :: segs
        | [] => [String.String c ""]
        end
  end.

(** Modelled from the spec: the selector of a field is its FieldPath, "a
    dotted sequence of field identifiers from the record root"; the parent
    package's [FieldSelector.Split] (the identifiers above the field, and
    its own) and [JoinFieldSelector] are declared outside the files at
    hand. *)
Definition FieldSelector_Split (f : string) : list string * string :=
  let a := strings_Split f in
  let idx := (length a - 1)%nat in
  if (0 <? idx)%nat then (firstn idx a, nth idx a "") else ([], f).

(** Modelled from the spec: [JoinFieldSelector], of the parent package,
    joins identifiers into the "dotted sequence" that a FieldPath is. *)
Definition JoinFieldSelector (a b : string) : string := a ++ "." ++ b.

(* ----------------------------------------------------------------- *)
(** *** initParams *)

(** [map[string][maxIn]string], read with the zero value on a missing key. *)
Definition namesTable : Type := string -> in_ -> string.

Section InitParams.
(** [p.name(paramIn)], the key under which the field is looked up in a
    source, is declared outside the files at hand.  It reads the field
    identifier and the annotations' key names, none of which [initParams]
    writes. *)
Variable name : paramInfo -> in_ -> string.

(** [a := [maxIn]string{}; for _, paramIn := range allIn { a[paramIn] = p.name(paramIn) }]. *)
Definition namesOf (p : paramInfo) : in_ -> string :=
  fold_left
    (fun (a : in_ -> string) paramIn =>
       fun i => if in_eqb i paramIn then name p paramIn else a i)
    allIn (fun _ => "").

(** The first loop: the names of the fields that are not embedded. *)
Definition collectNames (ps : list paramInfo) : namesTable :=
  fold_left
    (fun (names : namesTable) p =>
       if Anonymous (structField p) then names
       else fun k => if k =? fieldSelector p then namesOf p else names k)
    ps (fun _ _ => "").

(** The loop over [paths]: the selector built so far and [info.namePath]. *)
Definition walkPaths (names : namesTable) (i : in_) (paths : list string)
           (namePath0 : string) : string * string :=
  fold_left
    (fun (st : string * string) s =>
       let fs := if fst st =? "" then s else JoinFieldSelector (fst st) s in
       let nm := names fs i in
       (fs, if negb (nm =? "") then nm ++ "." else snd st))
    paths ("", namePath0).

(** The body of the loop over [p.tagInfos]. *)
Definition initTagInfo (names : namesTable) (p : paramInfo)
           (paths : list string) (info : tagInfo) : tagInfo :=
  let np := snd (walkPaths names (paramIn info) paths (namePath info))
            ++ name p (paramIn info) in
  mkTagInfo (paramIn info) (paramName info) (required info) np
    (Some (bindErrFactory p np "missing required parameter"))
    (Some (bindErrFactory p np "parameter type does not match binding data"))
    (Some (bindErrFactory p np "parameter cannot be bound"))
    (Some (bindErrFactory p np "does not support binding to the content type body")).

Definition initParam (names : namesTable) (p : paramInfo) : paramInfo :=
  let paths := fst (FieldSelector_Split (fieldSelector p)) in
  mkParamInfo (fieldSelector p) (structField p)
              (map (initTagInfo names p paths) (tagInfos p))
              (bindErrFactory p).

(** [initParams]: the receiver with its annotations filled in. *)
Definition initParams (r : receiver) : receiver :=
  let names := collectNames (params r) in
  mkReceiver (hasQuery r) (hasCookie r) (hasPath r) (hasBody r) (hasVd r)
             (map (initParam names) (params r)).

(** The selectors of the ancestors of a field, outermost first. *)
Fixpoint ancestorsFrom (fs : string) (paths : list string) : list string :=
  match paths with
  | [] => []
  | s :: rest =>
      let fs' := if fs =? "" then s else JoinFieldSelector fs s in
      fs' :: ancestorsFrom fs' rest
  end.

Definition ancestors (p : paramInfo) : list string :=
  ancestorsFrom "" (fst (FieldSelector_Split (fieldSelector p))).

(** The key, for the source [i], of the field selected by [fs]: none for an
    embedded (anonymous) field, and none where [fs] selects no field. *)
Definition keyOf (ps : list paramInfo) : namesTable :=
  fun fs i =>
    match getParam_range ps fs with
    | Some a => if Anonymous (structField a) then "" else name a i
    | None => ""
    end.

(** The segment an ancestor contributes to a dotted name: its key and a
    dot, or nothing when it has no key. *)
Definition segment (names : namesTable) (i : in_) (fs : string) : string :=
  if names fs i =? "" then "" else names fs i ++ ".".

(** The diagnostic name in the words of the specification: the key of the
    field for the source, prefixed with the key, for that same source, of
    each ancestor; an embedded ancestor contributes no segment. *)
Definition qualifiedName (ps : list paramInfo) (p : paramInfo) (i : in_) : string :=
  fold_right append "" (map (segment (keyOf ps) i) (ancestors p)) ++ name p i.

End InitParams.

(** Modelled from the spec: [p.name(paramIn)].  "Each FieldDescriptor's
    source key defaults to the field's own identifier unless an explicit
    annotation overrides it". *)
Definition keyName (p : paramInfo) (i : in_) : string :=
  match find (fun t => in_eqb (paramIn t) i) (tagInfos p) with
  | Some t => if paramName t =? "" then Name (structField p) else paramName t
  | None => Name (structField p)
  end.

(** Modelled from the spec: the error factory of a binder made with
    [binding.New(nil)] is declared outside the files at hand; it makes the
    BoundError of category "binding failed" that [TestJSON] expects. *)
Definition defaultErrorFactory (failField msg : string) : Error :=
  mkError "binding failed" failField msg.

End recv.

(* ================================================================= *)
(** ** Resolution, as the specification describes it *)

Module resolve.
Import recv.

(** Modelled from the spec: a source accessor, "fetch named value(s) as
    ordered sequence of strings, with presence flag", one for each source
    kind.  The resolution engine that consults them is declared outside the
    files at hand. *)
Definition accessor : Set := string -> list string * bool.

(** Modelled from the spec: the accessors of a request, by source kind. *)
Definition sources : Set := in_ -> accessor.

(** Modelled from the spec: the order in which an [auto] field tries its
    sources, "path -> query -> header -> cookie -> form -> raw JSON-subtree
    lookup". *)
Definition autoOrder : list in_ := [path; query; header; cookie; form; json].

(** Modelled from the spec: "accepting the first source that reports
    presence". *)
Fixpoint firstPresent (src : sources) (key : string) (order : list in_)
  : option (in_ * list string) :=
  match order with
  | [] => None
  | i :: rest =>
      if snd (src i key) then Some (i, fst (src i key))
      else firstPresent src key rest
  end.

(** Modelled from the spec: resolution of an [auto] field, "using the
    field's own identifier as the key". *)
Definition bindAuto (src : sources) (p : paramInfo) : option (in_ * list string) :=
  firstPresent src (Name (structField p)) autoOrder.

Section Resolve.
Variable name : paramInfo -> in_ -> string.
(** Whether the raw values convert to the type of the field. *)
Variable coerces : paramInfo -> list string -> bool.

(** Modelled from the spec: the raw values of one annotation of a field,
    [None] when its source reports absence. *)
Definition lookup (src : sources) (p : paramInfo) (info : tagInfo)
  : option (list string) :=
  match paramIn info with
  | auto => option_map snd (bindAuto src p)
  | i => if snd (src i (name p i)) then Some (fst (src i (name p i))) else None
  end.

(** Modelled from the spec: one resolution step.  "If absent and required:
    produce a missing-required error immediately"; "If absent and optional:
    skip silently"; "a coercion failure yields a type-mismatch error". *)
Definition resolveTag (src : sources) (p : paramInfo) (info : tagInfo)
  : option Error :=
  match lookup src p info with
  | Some vals => if coerces p vals then None else typeError info
  | None => if required info then requiredError info else None
  end.

(** Modelled from the spec: "the first error encountered ... aborts the
    entire call and is returned". *)
Fixpoint firstError {A : Type} (f : A -> option Error) (l : list A)
  : option Error :=
  match l with
  | [] => None
  | a :: rest =>
      match f a with
      | Some e => Some e
      | None => firstError f rest
      end
  end.

(** Modelled from the spec: "Processes descriptors in plan order". *)
Definition resolve (src : sources) (r : receiver) : option Error :=
  firstError (fun p => firstError (resolveTag src p) (tagInfos p)) (params r).

(** Modelled from the spec: [bind] compiles the plan of the record, then
    resolves the request against it. *)
Definition bind (src : sources) (r : receiver) : option Error :=
  resolve src (initParams name r).

End Resolve.

End resolve.

(* ================================================================= *)
(** * The properties, in the words of the specification *)

(** The built-in primitive scalar types: [string], [bool], the signed and
    unsigned integers of the standard widths, [float32] and [float64]. *)
Definition builtinScalarKind (k : reflect.Kind) : bool :=
  match k with
  | reflect.String | reflect.Bool
  | reflect.Int | reflect.Int8 | reflect.Int16 | reflect.Int32 | reflect.Int64
  | reflect.Uint | reflect.Uint8 | reflect.Uint16 | reflect.Uint32
  | reflect.Uint64
  | reflect.Float32 | reflect.Float64 => true
  | _ => false
  end.

Definition builtinScalar (t : reflect.rtype) : bool :=
  match t with
  | reflect.Predeclared k => builtinScalarKind k
  | _ => false
  end.

(** A pointer-shaped type: one whose kind is [Ptr]. *)
Definition pointerShaped (t : reflect.rtype) : bool :=
  match reflect.rtype_Kind t with
  | reflect.Ptr => true
  | _ => false
  end.

(** The registry with [fn] stored for [t]. *)
Definition stored {D} (t : reflect.rtype) (fn : func.converter D)
           (reg : reflect.rtype -> option (func.converter D))
  : reflect.rtype -> option (func.converter D) :=
  fun u => if reflect.rtype_eqb u t then Some fn else reg u.

(** The world after the converter invocations [calls], in that order. *)
Definition afterCalls {D} (w : func.World D) (calls : list (string * bool))
  : func.World D :=
  func.mkWorld (func.typeUnmarshalFuncs w) (func.invoked w ++ calls).

(** The self-test of a registration passes: the converter, given the empty
    string in loose-zero mode, returns no error and a value of type [t]. *)
Definition selfTestPasses {D} (t : reflect.rtype) (fn : func.converter D) : Prop :=
  snd (fn "" true) = None /\ reflect.Value_Type (fst (fn "" true)) = Some t.

(** The converter turns the text [s] into a value of type [t]. *)
Definition convertsTo {D} (fn : func.converter D) (looseZeroMode : bool)
           (t : reflect.rtype) (s : string) : Prop :=
  snd (fn s looseZeroMode) = None
  /\ reflect.Value_Type (fst (fn s looseZeroMode)) = Some t.

(** The values a converter makes of a list of texts, in the order of the
    texts. *)
Definition converted {D} (fn : func.converter D) (looseZeroMode : bool)
           (a : list string) : list (reflect.Value D) :=
  map (fun s => fst (fn s looseZeroMode)) a.

Definition callsFor (looseZeroMode : bool) (a : list string)
  : list (string * bool) :=
  map (fun s => (s, looseZeroMode)) a.

(** *** Concrete inputs *)

Module sample.
Import reflect func.

(** A defined struct type, temperatures in degrees, with a converter that
    knows the empty text and two names. *)
Definition Celsius : rtype := Defined "units" "Celsius" Struct.

Definition celsiusConv : converter Z :=
  fun s _ => if s =? "" then (Of Celsius 0%Z, None)
             else if s =? "boiling" then (Of Celsius 100%Z, None)
             else if s =? "body" then (Of Celsius 37%Z, None)
             else (Zero, Some "not a temperature").

Definition world0 : World Z := emptyWorld Z.

(** Times as seconds since the epoch, with a parser that knows one text. *)
Definition parseOne (s : string) : Z + error :=
  if s =? "2020-01-01T00:00:00Z" then inl 1577836800%Z
  else inr "parsing time: cannot parse as RFC3339".

End sample.

Module plans.
Import recv resolve.

(** A plan none of whose fields reads the query, the cookies or the body,
    one whose fields read the body, and two requests. *)
Definition idlePlan : receiver := mkReceiver false false false false false [].
Definition bodyPlan : receiver := mkReceiver false false false true false [].

Definition formRequest : Request :=
  mkRequest [("a", ["a1"; "a2"])] [mkCookie "sid" "7"]
            ([Byte.x63; Byte.x3d; Byte.x31], None)
            ([("a", ["a1"; "a2"]); ("c", ["1"])], [("c", ["1"])])
            None None [].

(** A request whose body stream fails while being read. *)
Definition brokenRequest : Request :=
  mkRequest [] [] ([], Some "unexpected EOF") ([], []) None None [].

(** A record that is no protobuf message, and one that is; the protobuf
    decoder rejects the empty body. *)
Definition plainTarget : Target string := mkTarget false "" [].
Definition messageTarget : Target string := mkTarget true "" [].
Definition jsonAssignText (s : string) (_ : string) : string := s.
Definition protoDecodeText (b : list Byte.byte) (old : string)
  : string * option error :=
  match b with
  | [] => (old, Some "proto: empty message")
  | _ => (string_of_list_byte b, None)
  end.

(** An annotation as compiled from a struct tag, nothing precomputed yet. *)
Definition tag (i : in_) (key : string) (req : bool) : tagInfo :=
  mkTagInfo i key req "" None None None None.

Definition field (sel name : string) (embedded : bool) (tags : list tagInfo)
  : paramInfo :=
  mkParamInfo sel (mkStructField name embedded) tags defaultErrorFactory.

Definition planOf (ps : list paramInfo) : receiver :=
  mkReceiver false false false true false ps.

(** [struct { X struct { Y struct { Z string `json:"z,required"` } `json:"y"` } `json:"x"` }]. *)
Definition deepZ : paramInfo := field "X.Y.Z" "Z" false [tag json "z" true].
Definition deepPlan : receiver :=
  planOf [field "X" "X" false [tag json "x" false];
          field "X.Y" "Y" false [tag json "y" false];
          deepZ].

(** The same with [Y] an embedded field. *)
Definition embeddedPlan : receiver :=
  planOf [field "X" "X" false [tag json "x" false];
          field "X.Y" "Y" true [];
          deepZ].

(** The record of [TestJSON]. *)
Definition jsonPlan : receiver :=
  planOf [field "X" "X" false [tag auto "X" false];
          field "X.A" "A" false [tag json "a" false];
          field "X.B" "B" false [tag json "" false];
          field "X.C" "C" false [tag json "" true];
          field "X.D" "D" false [tag json "d" false];
          field "Y" "Y" false [tag json "y" true];
          field "Z" "Z" false [tag auto "Z" false]].

(** The body of [TestJSON], as the JSON accessor reports it. *)
Definition jsonSources : sources :=
  fun i key =>
    match i with
    | json =>
        if key =? "X" then (["{...}"], true)
        else if key =? "a" then (["a1"; "a2"], true)
        else if key =? "B" then (["21"], true)
        else if key =? "C" then (["31"; "32"], true)
        else if key =? "d" then (["41"], true)
        else if key =? "Z" then (["6"], true)
        else ([], false)
    | _ => ([], false)
    end.

(** A JSON body that has the objects "x" and "y" and no "z" under them. *)
Definition deepSources : sources :=
  fun i key =>
    match i with
    | json =>
        if key =? "x" then (["{...}"], true)
        else if key =? "y" then (["{}"], true)
        else ([], false)
    | _ => ([], false)
    end.

(** A request that carries nothing. *)
Definition noSources : sources := fun _ _ => ([], false).

(** The request of [TestAuto]: [A], [B], [Y] in the query string, [C], [D]
    in the form. *)
Definition autoSources : sources :=
  fun i key =>
    match i with
    | query =>
        if key =? "A" then (["a1"; "a2"], true)
        else if key =? "B" then (["21"], true)
        else if key =? "Y" then (["y1"], true)
        else ([], false)
    | form =>
        if key =? "C" then (["31"; "32"], true)
        else if key =? "D" then (["41"; "42"], true)
        else ([], false)
    | _ => ([], false)
    end.

(** A request with the key [A] both in the query string and in a header. *)
Definition queryAndHeader : sources :=
  fun i key =>
    match i with
    | query => if key =? "A" then (["from-query"], true) else ([], false)
    | header => if key =? "A" then (["from-header"], true) else ([], false)
    | _ => ([], false)
    end.

Definition anyText (_ : paramInfo) (_ : list string) : bool := true.

End plans.

(** *** The prefix of a diagnostic name *)

(** The key of the nearest ancestor that has one for the source [i]: what
    the loop over [paths] keeps when it is done. *)
Fixpoint nearestNamed (names : recv.namesTable) (i : recv.in_)
         (anc : list string) : option string :=
  match anc with
  | [] => None
  | fs :: rest =>
      match nearestNamed names i rest with
      | Some nm => Some nm
      | None => if names fs i =? "" then None else Some (names fs i)
      end
  end.

(** The ancestors that have a key for the source [i]. *)
Definition namedAncestors (names : recv.namesTable) (i : recv.in_)
           (anc : list string) : list string :=
  filter (fun fs => negb (names fs i =? "")) anc.

(** The prefix the loop over the ancestors leaves, and the prefix of the
    qualified name, for a field whose ancestors are [anc]. *)
Definition keptPrefix (names : recv.namesTable) (i : recv.in_)
           (anc : list string) : string :=
  match nearestNamed names i anc with
  | Some nm => nm ++ "."
  | None => ""
  end.

Definition fullPrefix (names : recv.namesTable) (i : recv.in_)
           (anc : list string) : string :=
  fold_right append "" (map (recv.segment names i) anc).

(** The annotations of the field selected by [sel], once the plan is
    compiled: source, diagnostic name, missing-required error. *)
Definition compiledTags (name : recv.paramInfo -> recv.in_ -> string)
           (r : recv.receiver) (sel : string)
  : list (recv.in_ * string * option recv.Error) :=
  match recv.getParam (recv.initParams name r) sel with
  | Some p =>
      map (fun t => (recv.paramIn t, recv.namePath t, recv.requiredError t))
          (recv.tagInfos p)
  | None => []
  end.

(* ================================================================= *)
(** ** receiver.go: [getBodyCodec] *)

Module codecs.
Import recv.

(** [http.Header]: the canonical keys with their values. *)
Definition Header : Set := list (string * list string).

(** [h.Get(key)] for a canonical [key]: the first value under the key, the
    empty string when there is none. *)
Fixpoint Header_Get (h : Header) (key : string) : string :=
  match h with
  | [] => ""
  | (k, vs) :: rest =>
      if k =? key then match vs with v :: _ => v | [] => "" end
      else Header_Get rest key
  end.

(** [strings.Index(s, c)] for a one-byte [c]: the index of its first
    occurrence, [-1] when there is none. *)
Fixpoint strings_Index (s : string) (c : ascii) : Z :=
  match s with
  | EmptyString => (-1)%Z
  | String x rest =>
      if Ascii.eqb x c then 0%Z
      else
        let i := strings_Index rest c in
        if (i =? -1)%Z then (-1)%Z else (i + 1)%Z
  end.

(** [strings.TrimRight(s, " ")]: [s] without its trailing spaces. *)
Fixpoint strings_TrimRight (s : string) : string :=
  match s with
  | EmptyString => ""
  | String x rest =>
      let r := strings_TrimRight rest in
      if Ascii.eqb x " " && (r =? "") then "" else String x r
  end.

(** The [switch ct] of [getBodyCodec]. *)
Definition codecOf (ct : string) : codec :=
  if ct =? "application/json" then bodyJSON
  else if ct =? "application/x-protobuf" then bodyProtobuf
  else if (ct =? "application/x-www-form-urlencoded")
          || (ct =? "multipart/form-data") then bodyForm
  else bodyUnsupport.

(** [getBodyCodec], the request given by its header. *)
Definition getBodyCodec (r : receiver) (h : Header) : codec :=
  let ct := Header_Get h "Content-Type" in
  let idx := strings_Index ct ";" in
  let ct :=
    if negb (idx =? -1)%Z
    then strings_TrimRight (substring 0 (Z.to_nat idx) ct)
    else ct in
  codecOf ct.

(** A header that has [ct] as its content type. *)
Definition withContentType (ct : string) : Header := [("Content-Type", [ct])].

(** [n] spaces. *)
Fixpoint spaces (n : nat) : string :=
  match n with
  | O => ""
  | S m => String " " (spaces m)
  end.

End codecs.

(* ================================================================= *)
(** ** The validator functions *)

Module validator.

(** The layouts of Go's [time] package that [timeLayoutMap] names. *)
Inductive Layout : Set :=
| ANSIC | UnixDate | RubyDate | RFC822 | RFC822Z | RFC850 | RFC1123
| RFC1123Z | RFC3339 | RFC3339Nano | Kitchen | Stamp | StampMilli
| StampMicro | StampNano.

(** [timeLayoutMap]. *)
Definition timeLayoutMap (identifier : string) : option Layout :=
  if identifier =? "ANSIC" then Some ANSIC
  else if identifier =? "UnixDate" then Some UnixDate
  else if identifier =? "RubyDate" then Some RubyDate
  else if identifier =? "RFC822" then Some RFC822
  else if identifier =? "RFC822Z" then Some RFC822Z
  else if identifier =? "RFC850" then Some RFC850
  else if identifier =? "RFC1123" then Some RFC1123
  else if identifier =? "RFC1123Z" then Some RFC1123Z
  else if identifier =? "RFC3339" then Some RFC3339
  else if identifier =? "RFC3339Nano" then Some RFC3339Nano
  else if identifier =? "Kitchen" then Some Kitchen
  else if identifier =? "Stamp" then Some Stamp
  else if identifier =? "StampMilli" then Some StampMilli
  else if identifier =? "StampMicro" then Some StampMicro
  else if identifier =? "StampNano" then Some StampNano
  else None.

Section Validators.
(** [float64] and its [==]. *)
Variable F : Type.
Variable eqF : F -> F -> bool.

(** The [interface{}] arguments of a validator function: "The go number
    types always are float64; The go string types always are string". *)
Inductive value : Type :=
| VString (s : string)
| VNumber (x : F)
| VBool (b : bool)
| VNil.


(** [fmt]'s rendering of a [[]interface{}] under ["%+v"]. *)
Variable fmtValues : list value -> string.



(** [phonenumbers.Parse] and [phonenumbers.IsValidNumber]. *)
Variable PhoneNumber : Type.
Variable phonenumbers_Parse : string -> string -> PhoneNumber + error.
Variable IsValidNumber : PhoneNumber -> bool.

(** The function registered as [phone], after its [switch len(args)]. *)
Definition phoneCheck (numberToParse defaultRegion : string) : option error :=
  let defaultRegion := if defaultRegion =? "" then "CN" else defaultRegion in
  match phonenumbers_Parse numberToParse defaultRegion with
  | inr err => Some err
  | inl num =>
      if negb (IsValidNumber num) then Some "phone format is incorrect"
      else None
  end.

(** The function registered as [phone]: [case 2] falls through to [case 1]. *)
Definition phoneFunc (args : list value) : option error :=
  match args with
  | [a0; a1] =>
      match a1 with
      | VString defaultRegion =>
          match a0 with
          | VString numberToParse => phoneCheck numberToParse defaultRegion
          | _ => Some "the 1st parameter of phone function is not string type"
          end
      | _ => Some "the 2nd parameter of phone function is not string type"
      end
  | [a0] =>
      match a0 with
      | VString numberToParse => phoneCheck numberToParse ""
      | _ => Some "the 1st parameter of phone function is not string type"
      end
  | _ => Some "the number of parameters of phone function is not one or two"
  end.

(** [time.Parse(layout, value)], as far as the function looks at it: its
    error. *)
Variable time_Parse : Layout -> string -> option error.

(** The function registered as [time]. *)
Definition timeFunc (args : list value) : option error :=
  match args with
  | [a0] =>
      match a0 with
      | VString v =>
          match time_Parse RFC3339 v with
          | Some _ => Some "time format is not RFC3339"
          | None => None
          end
      | _ => Some "the 1st parameter of time function is not string type"
      end
  | [a0; a1] =>
      match a0 with
      | VString v =>
          match a1 with
          | VString identifier =>
              match timeLayoutMap identifier with
              | None => Some (identifier ++ " is not a supported layout")
              | Some layout =>
                  match time_Parse layout v with
                  | Some _ => Some ("time format is not " ++ identifier)
                  | None => None
                  end
              end
          | _ => Some "the 2nd parameter of time function is not string type"
          end
      | _ => Some "the 1st parameter of time function is not string type"
      end
  | _ => Some "Should only have 1 or 2 parameters"
  end.

End Validators.

Arguments VString {F} s.
Arguments VNumber {F} x.
Arguments VBool {F} b.
Arguments VNil {F}.

End validator.

(** *** More concrete inputs *)

Module sample2.
Import reflect func.

(** Decoders for a target that implements no unmarshaler, and for one that
    implements both. *)
Definition plainDecoders : Decoders (D := Z) :=
  mkDecoders (fun _ => false) (fun _ v => (v, None)) (fun _ => false)
             (fun _ v => (v, None)) (fun _ v => (v, None)).

Definition bothDecoders : Decoders (D := Z) :=
  mkDecoders (fun _ => true) (fun _ _ => (Of sample.Celsius 1%Z, None))
             (fun _ => true) (fun _ _ => (Of sample.Celsius 2%Z, None))
             (fun _ _ => (Of sample.Celsius 3%Z, None)).

(** A converter that answers every text with five degrees. *)
Definition fiveConv : converter Z := fun _ _ => (Of sample.Celsius 5%Z, None).

(** A converter that answers "oops" with the zero Value and no error. *)
Definition looseConv : converter Z :=
  fun s _ => if s =? "oops" then (Zero, None)
             else (Of sample.Celsius 1%Z, None).

(** The world in which [sample.celsiusConv] is registered. *)
Definition celsiusWorld : World Z :=
  mkWorld (stored sample.Celsius sample.celsiusConv (fun _ => None)) [].

End sample2.

Module sample3.
Import validator.

(** Two parsers that accept the same texts and word their errors apart. *)
Definition terseParse (_ : Layout) (v : string) : option error :=
  if v =? "3:04PM" then None else Some "bad".

Definition wordyParse (_ : Layout) (v : string) : option error :=
  if v =? "3:04PM" then None else Some "parsing time: cannot parse".

End sample3.

(* ================================================================= *)
(** * Proofs: func.go *)

Section FuncFacts.
Import reflect func.
Context {D : Type}.

Lemma rtype_eqb_refl (t : rtype) : rtype_eqb t t = true.
Proof. unfold rtype_eqb. destruct (rtype_eq_dec t t); congruence. Qed.

Lemma rtype_eqb_eq (a b : rtype) : rtype_eqb a b = true <-> a = b.
Proof.
  unfold rtype_eqb. destruct (rtype_eq_dec a b); split; congruence.
Qed.

Lemma afterCalls_nil (w : World D) : afterCalls w [] = w.
Proof. destruct w. unfold afterCalls. cbn. now rewrite app_nil_r. Qed.

Lemma afterCalls_app (w : World D) (k l : list (string * bool)) :
  afterCalls (afterCalls w k) l = afterCalls w (k ++ l).
Proof. unfold afterCalls. cbn. now rewrite app_assoc. Qed.

(** What a registration that passes the kind check does: one call of the
    converter, then an error, a panic, or the store. *)
Lemma RegTypeUnmarshal_tested (t : rtype) (fn : converter D) (w : World D) :
  builtinScalar t = false -> pointerShaped t = false ->
  RegTypeUnmarshal t fn w =
  match snd (fn "" true) with
  | Some err => (Returns (Some ("test fail: " ++ err)), afterCalls w [("", true)])
  | None =>
      match Value_Type (fst (fn "" true)) with
      | None =>
          (Panics "reflect: call of reflect.Value.Type on zero Value",
           afterCalls w [("", true)])
      | Some tt' =>
          if rtype_eqb tt' t then
            (Returns None,
             mkWorld (stored t fn (typeUnmarshalFuncs w))
                     (invoked w ++ [("", true)]))
          else
            (Returns (Some ("test fail: expect return value type is "
                            ++ rtype_String t ++ ", but got "
                            ++ rtype_String tt')),
             afterCalls w [("", true)])
      end
  end.
Proof.
  intros Hb Hp.
  transitivity
    (bind (call fn "" true)
      (fun r => match snd r with
                | Some err => ret (Some ("test fail: " ++ err))
                | None =>
                    bind (orPanic "reflect: call of reflect.Value.Type on zero Value"
                                  (Value_Type (fst r)))
                      (fun tt' =>
                         if negb (rtype_eqb tt' t) then
                           ret (Some ("test fail: expect return value type is "
                                      ++ rtype_String t ++ ", but got "
                                      ++ rtype_String tt'))
                         else bind (storeFunc t fn) (fun _ => ret None))
                end) w).
  - destruct t as [k | p n k | e | e]; cbn in Hb, Hp.
    + destruct k; try discriminate; reflexivity.
    + destruct k; try discriminate; reflexivity.
    + discriminate.
    + reflexivity.
  - unfold bind, call. cbn.
    destruct (fn "" true) as [vv [err |]]; cbn; [reflexivity |].
    destruct (Value_Type vv) as [tt' |]; cbn; [| reflexivity].
    destruct (rtype_eqb tt' t); reflexivity.
Qed.

End FuncFacts.

(** C4: registering a converter for a type that is exactly one of the
    built-in primitive scalar types, or for a pointer-shaped type, returns an
    error; the registry is left as it was and the converter is not run. *)
Theorem RegTypeUnmarshal_rejects_scalar_and_pointer :
  forall (D : Type) (t : reflect.rtype) (fn : func.converter D)
         (w : func.World D),
    builtinScalar t = true \/ pointerShaped t = true ->
    exists e : error,
      func.RegTypeUnmarshal t fn w = (func.Returns (Some e), w)
      /\ (builtinScalar t = true ->
          e = "registration type cannot be a basic type")
      /\ (pointerShaped t = true ->
          e = "registration type cannot be a pointer type").
Proof.
  intros D t fn w [H | H].
  - destruct t as [k | | |]; try discriminate.
    destruct k; try discriminate;
      (eexists; split; [reflexivity | split; [reflexivity | discriminate]]).
  - destruct t as [k | p n k | e | e]; try discriminate.
    + destruct k; try discriminate.
      eexists; split; [reflexivity | split; [discriminate | reflexivity]].
    + destruct k; try discriminate.
      eexists; split; [reflexivity | split; [discriminate | reflexivity]].
    + eexists; split; [reflexivity | split; [discriminate | reflexivity]].
Qed.

Lemma RegTypeUnmarshal_rejects_scalar_and_pointer_witness :
  (builtinScalar (reflect.Predeclared reflect.Int32) = true
   \/ pointerShaped (reflect.Predeclared reflect.Int32) = true)
  /\ (builtinScalar (reflect.PtrTo sample.Celsius) = true
      \/ pointerShaped (reflect.PtrTo sample.Celsius) = true)
  /\ (exists e,
        func.RegTypeUnmarshal (reflect.Predeclared reflect.Int32)
          sample.celsiusConv sample.world0 = (func.Returns (Some e), sample.world0)
        /\ (builtinScalar (reflect.Predeclared reflect.Int32) = true ->
            e = "registration type cannot be a basic type")
        /\ (pointerShaped (reflect.Predeclared reflect.Int32) = true ->
            e = "registration type cannot be a pointer type"))
  /\ (exists e,
        func.RegTypeUnmarshal (reflect.PtrTo sample.Celsius)
          sample.celsiusConv sample.world0 = (func.Returns (Some e), sample.world0)
        /\ (builtinScalar (reflect.PtrTo sample.Celsius) = true ->
            e = "registration type cannot be a basic type")
        /\ (pointerShaped (reflect.PtrTo sample.Celsius) = true ->
            e = "registration type cannot be a pointer type")).
Proof.
  split; [left; reflexivity |].
  split; [right; reflexivity |].
  split.
  - apply (RegTypeUnmarshal_rejects_scalar_and_pointer Z
             (reflect.Predeclared reflect.Int32)).
    left; reflexivity.
  - apply (RegTypeUnmarshal_rejects_scalar_and_pointer Z
             (reflect.PtrTo sample.Celsius)).
    right; reflexivity.
Defined.

(** C5: a registration that gets past the kind check runs the converter
    exactly once, on the empty string in loose-zero mode; it succeeds exactly
    when that call returns no error and a value of type [t]; the converter
    is stored on success, and the registry is left as it was otherwise. *)
Theorem RegTypeUnmarshal_self_test :
  forall (D : Type) (t : reflect.rtype) (fn : func.converter D)
         (w : func.World D),
    builtinScalar t = false -> pointerShaped t = false ->
    func.invoked (snd (func.RegTypeUnmarshal t fn w))
      = (func.invoked w ++ [("", true)])%list
    /\ (fst (func.RegTypeUnmarshal t fn w) = func.Returns None
        <-> selfTestPasses t fn)
    /\ (selfTestPasses t fn ->
        func.typeUnmarshalFuncs (snd (func.RegTypeUnmarshal t fn w))
          = stored t fn (func.typeUnmarshalFuncs w))
    /\ (~ selfTestPasses t fn ->
        func.typeUnmarshalFuncs (snd (func.RegTypeUnmarshal t fn w))
          = func.typeUnmarshalFuncs w).
Proof.
  intros D t fn w Hb Hp.
  rewrite (RegTypeUnmarshal_tested t fn w Hb Hp).
  unfold selfTestPasses.
  destruct (fn "" true) as [vv [err |]]; cbn.
  - split; [reflexivity |].
    split; [split; [discriminate | intros [H _]; discriminate] |].
    split; [intros [H _]; discriminate | reflexivity].
  - destruct (reflect.Value_Type vv) as [tt' |]; cbn.
    + destruct (reflect.rtype_eqb tt' t) eqn:E; cbn.
      * apply rtype_eqb_eq in E. subst tt'.
        split; [reflexivity |].
        split; [split; [intros _; split; reflexivity | reflexivity] |].
        split; [reflexivity |].
        intros H; exfalso; apply H; split; reflexivity.
      * assert (tt' <> t)
          by (intros ->; rewrite rtype_eqb_refl in E; discriminate).
        split; [reflexivity |].
        split; [split; [discriminate | intros [_ H']; congruence] |].
        split; [intros [_ H']; congruence | reflexivity].
    + split; [reflexivity |].
      split; [split; [discriminate | intros [_ H']; discriminate] |].
      split; [intros [_ H']; discriminate | reflexivity].
Qed.

Lemma RegTypeUnmarshal_self_test_witness :
  builtinScalar sample.Celsius = false
  /\ pointerShaped sample.Celsius = false
  /\ func.invoked
       (snd (func.RegTypeUnmarshal sample.Celsius sample.celsiusConv sample.world0))
     = [("", true)]
  /\ func.typeUnmarshalFuncs
       (snd (func.RegTypeUnmarshal sample.Celsius sample.celsiusConv sample.world0))
     = stored sample.Celsius sample.celsiusConv (fun _ => None).
Proof.
  split; [reflexivity |]. split; [reflexivity |].
  pose proof (RegTypeUnmarshal_self_test Z sample.Celsius sample.celsiusConv
                sample.world0 eq_refl eq_refl) as [Hc [_ [Hs _]]].
  split.
  - exact Hc.
  - apply Hs. split; reflexivity.
Defined.

Section SliceFacts.
Import reflect func.
Context {D : Type}.

(** The loop of [unmarshalSlice] over a run of texts that all convert. *)
Lemma unmarshalSlice_range_app (fn : converter D) (t : rtype) (loose : bool)
      (done tail : list string) :
  Forall (convertsTo fn loose t) done ->
  forall (acc : list (Value D)) (w : World D),
    unmarshalSlice_range fn (done ++ tail) loose (SliceVal t acc) w =
    unmarshalSlice_range fn tail loose
      (SliceVal t (acc ++ converted fn loose done))
      (afterCalls w (callsFor loose done)).
Proof.
  induction 1 as [| s done [Herr Hty] _ IH]; intros acc w.
  - cbn. now rewrite app_nil_r, afterCalls_nil.
  - cbn [app unmarshalSlice_range]. unfold bind at 1, call at 1.
    cbn. rewrite Herr. unfold bind at 1. cbn. rewrite Hty.
    rewrite rtype_eqb_refl. cbn.
    change (mkWorld (typeUnmarshalFuncs w) (invoked w ++ [(s, loose)]))
      with (afterCalls w [(s, loose)]).
    rewrite IH, afterCalls_app. unfold converted, callsFor. cbn.
    now rewrite <- app_assoc.
Qed.

End SliceFacts.

(** C6: [unmarshalSlice] runs the converter on the texts in their order.
    When every text of [done] converts, the slice holds their values in that
    order, one for each text, repeated texts included; when the text after
    them fails, its error is returned at once, with the values converted so
    far, and no later text is handed to the converter. *)
Theorem unmarshalSlice_in_order_fail_fast :
  forall (D : Type) (fn : func.converter D) (t : reflect.rtype) (loose : bool)
         (done : list string) (w : func.World D),
    Forall (convertsTo fn loose t) done ->
    func.unmarshalSlice fn t done loose w
      = (func.Returns (reflect.SliceVal t (converted fn loose done), None),
         afterCalls w (callsFor loose done))
    /\ forall (s : string) (e : error) (rest : list string),
         snd (fn s loose) = Some e ->
         func.unmarshalSlice fn t (done ++ s :: rest) loose w
           = (func.Returns (reflect.SliceVal t (converted fn loose done), Some e),
              afterCalls w (callsFor loose (done ++ [s]))).
Proof.
  intros D fn t loose done w Hall. unfold func.unmarshalSlice, reflect.NewSlice.
  split.
  - rewrite <- (app_nil_r done) at 1.
    rewrite (unmarshalSlice_range_app fn t loose done [] Hall). reflexivity.
  - intros s e rest He.
    rewrite (unmarshalSlice_range_app fn t loose done (s :: rest) Hall).
    cbn. unfold func.bind, func.call. cbn. rewrite He. cbn.
    unfold func.ret, callsFor, afterCalls. cbn.
    now rewrite map_app, app_assoc.
Qed.

Lemma unmarshalSlice_in_order_fail_fast_witness :
  Forall (convertsTo sample.celsiusConv true sample.Celsius)
         ["boiling"; "body"; "boiling"]
  /\ func.unmarshalSlice sample.celsiusConv sample.Celsius
       ["boiling"; "body"; "boiling"] true sample.world0
     = (func.Returns
          (reflect.SliceVal sample.Celsius
             [reflect.Of sample.Celsius 100%Z; reflect.Of sample.Celsius 37%Z;
              reflect.Of sample.Celsius 100%Z], None),
        func.mkWorld (fun _ => None)
          [("boiling", true); ("body", true); ("boiling", true)])
  /\ func.unmarshalSlice sample.celsiusConv sample.Celsius
       (["boiling"; "body"; "boiling"] ++ "tepid" :: ["body"]) true sample.world0
     = (func.Returns
          (reflect.SliceVal sample.Celsius
             [reflect.Of sample.Celsius 100%Z; reflect.Of sample.Celsius 37%Z;
              reflect.Of sample.Celsius 100%Z], Some "not a temperature"),
        func.mkWorld (fun _ => None)
          [("boiling", true); ("body", true); ("boiling", true); ("tepid", true)]).
Proof.
  assert (H : Forall (convertsTo sample.celsiusConv true sample.Celsius)
                     ["boiling"; "body"; "boiling"])
    by (repeat constructor).
  split; [exact H |].
  destruct (unmarshalSlice_in_order_fail_fast Z sample.celsiusConv
              sample.Celsius true ["boiling"; "body"; "boiling"]
              sample.world0 H) as [Hok Hfail].
  split.
  - exact Hok.
  - exact (Hfail "tepid" "not a temperature" ["body"] eq_refl).
Defined.

(** C10: [init] registers a converter for [time.Time].  The converter
    answers the empty string in loose-zero mode with the zero time and no
    error; every other input is parsed as RFC3339, giving the parsed time,
    or the parser's error with no value; through [unsafeUnmarshalValue] such
    an error leaves the target as it was. *)
Theorem init_registers_time_converter :
  forall (Time : Type) (zeroTime : Time) (parseRFC3339 : string -> Time + error)
         (D : Type) (ofTime : Time -> D) (w : func.World D),
    func.init Time zeroTime parseRFC3339 ofTime w
      = (func.Returns tt,
         func.mkWorld
           (stored func.timeType
                   (func.timeUnmarshal Time zeroTime parseRFC3339 ofTime)
                   (func.typeUnmarshalFuncs w))
           (func.invoked w ++ [("", true)]))
    /\ func.timeUnmarshal Time zeroTime parseRFC3339 ofTime "" true
       = (func.ValueOfTime Time ofTime zeroTime, None)
    /\ (forall (v : string) (b : bool) (t : Time),
          (v, b) <> ("", true) -> parseRFC3339 v = inl t ->
          func.timeUnmarshal Time zeroTime parseRFC3339 ofTime v b
          = (func.ValueOfTime Time ofTime t, None))
    /\ (forall (v : string) (b : bool) (e : error),
          (v, b) <> ("", true) -> parseRFC3339 v = inr e ->
          func.timeUnmarshal Time zeroTime parseRFC3339 ofTime v b
          = (reflect.Zero, Some e))
    /\ (forall (v : string) (b : bool) (e : error)
               (dec : func.Decoders) (target : reflect.Value D),
          (v, b) <> ("", true) -> parseRFC3339 v = inr e ->
          reflect.Value_Type target = Some func.timeType ->
          func.unsafeUnmarshalValue dec target v b
            (snd (func.init Time zeroTime parseRFC3339 ofTime w))
          = (func.Returns (target, Some e),
             afterCalls (snd (func.init Time zeroTime parseRFC3339 ofTime w))
                        [(v, b)])).
Proof.
  intros Time zeroTime parse D ofTime w.
  assert (Hother : forall v b, (v, b) <> ("", true) ->
                               (v =? "") && b = false).
  { intros v b Hne. destruct (String.eqb_spec v ""); [| reflexivity].
    destruct b; [| reflexivity]. subst v. now elim Hne. }
  assert (Hinit :
    func.init Time zeroTime parse ofTime w
    = (func.Returns tt,
       func.mkWorld
         (stored func.timeType (func.timeUnmarshal Time zeroTime parse ofTime)
                 (func.typeUnmarshalFuncs w))
         (func.invoked w ++ [("", true)]))).
  { unfold func.init, func.MustRegTypeUnmarshal, func.bind.
    rewrite RegTypeUnmarshal_tested by reflexivity. reflexivity. }
  split; [exact Hinit |].
  split; [reflexivity |].
  split; [| split].
  - intros v b t Hne Hp. unfold func.timeUnmarshal.
    now rewrite (Hother v b Hne), Hp.
  - intros v b e Hne Hp. unfold func.timeUnmarshal.
    now rewrite (Hother v b Hne), Hp.
  - intros v b e dec target Hne Hp Hty. rewrite Hinit. cbn [snd].
    unfold func.unsafeUnmarshalValue, func.bind, func.orPanic.
    rewrite Hty. cbn. unfold func.timeUnmarshal at 1.
    rewrite (Hother v b Hne), Hp. reflexivity.
Qed.

Lemma init_registers_time_converter_witness :
  func.typeUnmarshalFuncs
    (snd (func.init Z 0%Z sample.parseOne (fun z => z) sample.world0))
    func.timeType
  = Some (func.timeUnmarshal Z 0%Z sample.parseOne (fun z => z))
  /\ func.timeUnmarshal Z 0%Z sample.parseOne (fun z => z)
       "2020-01-01T00:00:00Z" false
     = (reflect.Of func.timeType 1577836800%Z, None)
  /\ func.timeUnmarshal Z 0%Z sample.parseOne (fun z => z) "" false
     = (reflect.Zero, Some "parsing time: cannot parse as RFC3339")
  /\ func.timeUnmarshal Z 0%Z sample.parseOne (fun z => z) "yesterday" true
     = (reflect.Zero, Some "parsing time: cannot parse as RFC3339").
Proof.
  destruct (init_registers_time_converter Z 0%Z sample.parseOne Z
              (fun z => z) sample.world0) as [Hinit [_ [Hok [Herr _]]]].
  split; [rewrite Hinit; reflexivity |].
  split; [apply Hok; [discriminate | reflexivity] |].
  split; apply Herr; try discriminate; reflexivity.
Defined.

(* ================================================================= *)
(** * Proofs: receiver.go *)

Section AccessorFacts.
Import recv.

(** [getBody] returns a nil error whatever the read of the body gave. *)
Lemma getBody_error_nil (r : receiver) (req : Request) :
  snd (fst (getBody r req)) = None.
Proof.
  unfold getBody, copyBody. destruct (hasBody r); [| reflexivity].
  destruct (bodyStream req) as [b [e |]]; reflexivity.
Qed.

Lemma in_eqb_eq (a b : in_) : in_eqb a b = true <-> a = b.
Proof. unfold in_eqb. destruct (in_eq_dec a b); split; congruence. Qed.

End AccessorFacts.

(** C2: the claim is that an error met while reading the raw body reaches
    the caller.  [getBody] does not do that: the error it returns is nil for
    every plan and request, and on a request whose body stream fails with
    "unexpected EOF" it returns the bytes read, the empty string and a nil
    error. *)
Theorem getBody_drops_read_error :
  (forall (r : recv.receiver) (req : recv.Request),
      snd (fst (recv.getBody r req)) = None)
  /\ snd (recv.bodyStream plans.brokenRequest) = Some "unexpected EOF"
  /\ recv.getBody plans.bodyPlan plans.brokenRequest
     = (([], "", None), recv.touch recv.BodyRead plans.brokenRequest).
Proof.
  split; [exact getBody_error_nil |]. split; reflexivity.
Qed.

(** C8: with the protobuf codec, [prebindBody] on a record that does not
    implement the message contract returns an error and runs no decoder;
    on a record that implements it, the decoder runs on the body bytes and
    its error, if any, is what [prebindBody] returns. *)
Theorem prebindBody_protobuf :
  forall (T : Type) (jsonAssign : string -> T -> T)
         (protoUnmarshal : list Byte.byte -> T -> T * option error)
         (tgt : recv.Target T) (bodyBytes : list Byte.byte),
    (recv.isProtoMessage tgt = false ->
     recv.prebindBody jsonAssign protoUnmarshal tgt recv.bodyProtobuf bodyBytes
     = (Some "protobuf content type is not supported", tgt))
    /\ (recv.isProtoMessage tgt = true ->
        recv.prebindBody jsonAssign protoUnmarshal tgt recv.bodyProtobuf bodyBytes
        = (snd (protoUnmarshal bodyBytes (recv.content tgt)),
           recv.mkTarget true
             (fst (protoUnmarshal bodyBytes (recv.content tgt)))
             (recv.decodedBy tgt ++ [recv.bodyProtobuf]))).
Proof.
  intros T jsonAssign protoUnmarshal tgt bodyBytes.
  unfold recv.prebindBody, recv.bodyProtobuf. split; intros H; rewrite H; cbn.
  - reflexivity.
  - destruct (protoUnmarshal bodyBytes (recv.content tgt)) as [c [e |]];
      reflexivity.
Qed.

Lemma prebindBody_protobuf_witness :
  recv.prebindBody plans.jsonAssignText plans.protoDecodeText
    plans.plainTarget recv.bodyProtobuf [Byte.x08; Byte.x01]
  = (Some "protobuf content type is not supported", plans.plainTarget)
  /\ recv.prebindBody plans.jsonAssignText plans.protoDecodeText
       plans.messageTarget recv.bodyProtobuf []
     = (Some "proto: empty message",
        recv.mkTarget true "" [recv.bodyProtobuf]).
Proof.
  split.
  - apply (proj1 (prebindBody_protobuf string plans.jsonAssignText
                    plans.protoDecodeText plans.plainTarget
                    [Byte.x08; Byte.x01])).
    reflexivity.
  - apply (proj2 (prebindBody_protobuf string plans.jsonAssignText
                    plans.protoDecodeText plans.messageTarget [])).
    reflexivity.
Defined.

(** C9: the plan records in [hasQuery], [hasCookie] and [hasBody] whether
    any of its fields reads the query string, the cookies, the body.  With
    the flag unset the accessor returns its empty result and the request is
    left untouched; the form is parsed only when the codec is the form codec
    and the body is read by some field. *)
Theorem accessors_skip_unneeded_sources :
  forall (r : recv.receiver) (req : recv.Request) (bodyCodec : recv.codec),
    (recv.hasQuery r = false -> recv.getQuery r req = (None, req))
    /\ (recv.hasCookie r = false -> recv.getCookies r req = ([], req))
    /\ (recv.hasBody r = false ->
        recv.getBody r req = (([], "", None), req)
        /\ recv.getPostForm r req bodyCodec = ((None, None), req))
    /\ (bodyCodec <> recv.bodyForm ->
        recv.getPostForm r req bodyCodec = ((None, None), req))
    /\ (snd (recv.getPostForm r req bodyCodec) <> req ->
        bodyCodec = recv.bodyForm /\ recv.hasBody r = true).
Proof.
  intros r req bodyCodec.
  unfold recv.getQuery, recv.getCookies, recv.getBody, recv.getPostForm.
  split; [intros ->; reflexivity |].
  split; [intros ->; reflexivity |].
  split.
  { intros ->. split; [reflexivity |]. now rewrite andb_false_r. }
  split.
  - intros Hne. destruct (recv.in_eqb bodyCodec recv.bodyForm) eqn:E.
    + apply in_eqb_eq in E. contradiction.
    + reflexivity.
  - destruct (recv.in_eqb bodyCodec recv.bodyForm) eqn:E; cbn.
    + apply in_eqb_eq in E. destruct (recv.hasBody r); cbn.
      * intros _. split; [exact E | reflexivity].
      * intros H. now elim H.
    + intros H. now elim H.
Qed.

Lemma accessors_skip_unneeded_sources_witness :
  recv.getQuery plans.idlePlan plans.formRequest = (None, plans.formRequest)
  /\ recv.getCookies plans.idlePlan plans.formRequest = ([], plans.formRequest)
  /\ recv.getBody plans.idlePlan plans.formRequest
     = (([], "", None), plans.formRequest)
  /\ recv.getPostForm plans.idlePlan plans.formRequest recv.bodyForm
     = ((None, None), plans.formRequest)
  /\ recv.getPostForm plans.bodyPlan plans.formRequest recv.bodyJSON
     = ((None, None), plans.formRequest).
Proof.
  destruct (accessors_skip_unneeded_sources plans.idlePlan plans.formRequest
              recv.bodyForm) as [Hq [Hc [Hb _]]].
  destruct (accessors_skip_unneeded_sources plans.bodyPlan plans.formRequest
              recv.bodyJSON) as [_ [_ [_ [Hj _]]]].
  split; [apply Hq; reflexivity |].
  split; [apply Hc; reflexivity |].
  split; [apply Hb; reflexivity |].
  split; [apply Hb; reflexivity |].
  apply Hj. discriminate.
Defined.

Section InitParamsFacts.
Import recv.

(** The loop over [paths] leaves in [info.namePath] the key of the nearest
    ancestor that has one, followed by a dot, and nothing of the ancestors
    above it. *)
Lemma walkPaths_from (names : namesTable) (i : in_) (paths : list string) :
  forall (fs0 namePath0 : string),
    snd (fold_left
           (fun (st : string * string) s =>
              let fs := if fst st =? "" then s
                        else JoinFieldSelector (fst st) s in
              let nm := names fs i in
              (fs, if negb (nm =? "") then nm ++ "." else snd st))
           paths (fs0, namePath0))
    = match nearestNamed names i (ancestorsFrom fs0 paths) with
      | Some nm => nm ++ "."
      | None => namePath0
      end.
Proof.
  induction paths as [| s rest IH]; intros fs0 np0; [reflexivity |].
  cbn [fold_left ancestorsFrom nearestNamed fst snd]. rewrite IH.
  destruct (nearestNamed names i
              (ancestorsFrom (if fs0 =? "" then s else JoinFieldSelector fs0 s)
                             rest)); [reflexivity |].
  destruct (names (if fs0 =? "" then s else JoinFieldSelector fs0 s) i =? "");
    reflexivity.
Qed.

Lemma walkPaths_nearest (names : namesTable) (i : in_) (paths : list string)
      (namePath0 : string) :
  snd (walkPaths names i paths namePath0)
  = match nearestNamed names i (ancestorsFrom "" paths) with
    | Some nm => nm ++ "."
    | None => namePath0
    end.
Proof. apply walkPaths_from. Qed.

(** Every annotation gets its missing-required error from the factory of
    its field, with the diagnostic name and the fixed message. *)
Lemma initTagInfo_requiredError (name : paramInfo -> in_ -> string)
      (names : namesTable) (p : paramInfo) (paths : list string)
      (info : tagInfo) :
  requiredError (initTagInfo name names p paths info)
  = Some (bindErrFactory p (namePath (initTagInfo name names p paths info))
                         "missing required parameter").
Proof. reflexivity. Qed.

(** A field at the top of the record is named by its own key. *)
Lemma initTagInfo_top_level (name : paramInfo -> in_ -> string)
      (names : namesTable) (p : paramInfo) (info : tagInfo) :
  namePath info = "" ->
  namePath (initTagInfo name names p [] info) = name p (paramIn info).
Proof. intros H. cbn. now rewrite H. Qed.

End InitParamsFacts.


(* ================================================================= *)
(** * The diagnostic name and the qualified name, in general *)

Section NamePathFacts.
Import recv.
Variable name : paramInfo -> in_ -> string.

Lemma append_nil_r (s : string) : s ++ "" = s.
Proof. induction s as [| c s IH]; cbn; [reflexivity | now rewrite IH]. Qed.

Lemma length_append (a b : string) :
  String.length (a ++ b) = String.length a + String.length b.
Proof. induction a as [| c a IH]; cbn; [reflexivity | now rewrite IH]. Qed.

(** The array filled from [allIn] has the key of every source. *)
Lemma namesOf_name (p : paramInfo) (i : in_) : namesOf name p i = name p i.
Proof. destruct i; reflexivity. Qed.

Lemma getParam_range_absent (ps : list paramInfo) (fs : string) :
  ~ In fs (map fieldSelector ps) -> getParam_range ps fs = None.
Proof.
  induction ps as [| p ps IH]; cbn; intros Hn; [reflexivity |].
  destruct (String.eqb_spec (fieldSelector p) fs) as [E | E].
  - elim Hn. now left.
  - apply IH. intros H. apply Hn. now right.
Qed.

Lemma getParam_range_none (ps : list paramInfo) (fs : string) :
  getParam_range ps fs = None -> ~ In fs (map fieldSelector ps).
Proof.
  induction ps as [| p ps IH]; cbn; intros H; [tauto |].
  destruct (String.eqb_spec (fieldSelector p) fs) as [E | E]; [discriminate |].
  intros [H' | H']; [contradiction | now apply IH].
Qed.

(** [getOrAddParam] keeps the selectors of the plan distinct. *)
Lemma getOrAddParam_NoDup (r : receiver) (sel : string) (sf : StructField)
      (factory : string -> string -> Error) :
  NoDup (map fieldSelector (params r)) ->
  NoDup (map fieldSelector (params (snd (getOrAddParam r sel sf factory)))).
Proof.
  intros Hnd. unfold getOrAddParam, getParam.
  destruct (getParam_range (params r) sel) eqn:E; cbn; [exact Hnd |].
  rewrite map_app. cbn. apply getParam_range_none in E.
  apply NoDup_app; [exact Hnd | repeat constructor; intros [] |].
  intros x Hx [<- | []]. contradiction.
Qed.

(** The table built by the first loop, started from [acc]. *)
Lemma collectNames_from (ps : list paramInfo) :
  NoDup (map fieldSelector ps) ->
  forall (acc : namesTable) (fs : string),
    fold_left
      (fun (names : namesTable) p =>
         if Anonymous (structField p) then names
         else fun k => if k =? fieldSelector p then namesOf name p else names k)
      ps acc fs
    = match getParam_range ps fs with
      | Some a => if Anonymous (structField a) then acc fs else namesOf name a
      | None => acc fs
      end.
Proof.
  induction ps as [| p ps IH]; intros Hnd acc fs; [reflexivity |].
  cbn in Hnd. inversion Hnd as [| x l Hnotin Hnd']; subst.
  cbn [fold_left getParam_range]. rewrite (IH Hnd').
  destruct (String.eqb_spec (fieldSelector p) fs) as [E | E].
  - subst fs. rewrite (getParam_range_absent ps _ Hnotin).
    destruct (Anonymous (structField p)); [reflexivity |].
    now rewrite String.eqb_refl.
  - assert (Hacc :
      (if Anonymous (structField p) then acc
       else fun k => if k =? fieldSelector p then namesOf name p else acc k) fs
      = acc fs).
    { destruct (Anonymous (structField p)); [reflexivity |].
      destruct (String.eqb_spec fs (fieldSelector p)); [congruence | reflexivity]. }
    destruct (getParam_range ps fs) as [a |]; [| exact Hacc].
    destruct (Anonymous (structField a)); [exact Hacc | reflexivity].
Qed.

(** With selectors that are unique, as [getOrAddParam] keeps them, the table
    of the first loop holds the key of each field that is not embedded. *)
Lemma collectNames_keyOf (ps : list paramInfo) (fs : string) (i : in_) :
  NoDup (map fieldSelector ps) ->
  collectNames name ps fs i = keyOf name ps fs i.
Proof.
  intros Hnd. unfold collectNames, keyOf. rewrite (collectNames_from ps Hnd).
  destruct (getParam_range ps fs) as [a |]; [| reflexivity].
  destruct (Anonymous (structField a)); [reflexivity | apply namesOf_name].
Qed.

Lemma nearestNamed_ext (n1 n2 : namesTable) (i : in_) (anc : list string) :
  (forall fs, n1 fs i = n2 fs i) ->
  nearestNamed n1 i anc = nearestNamed n2 i anc.
Proof.
  intros H. induction anc as [| fs anc IH]; cbn; [reflexivity |].
  now rewrite IH, H.
Qed.

Section Prefixes.
Variable names : namesTable.
Variable i : in_.

Lemma nearestNamed_none (anc : list string) :
  nearestNamed names i anc = None <-> namedAncestors names i anc = [].
Proof.
  induction anc as [| fs anc IH]; cbn; [tauto |].
  destruct (nearestNamed names i anc) as [nm |].
  - split; [discriminate |]. intros H.
    destruct (names fs i =? ""); cbn in H; [| discriminate].
    apply IH in H. discriminate.
  - destruct (names fs i =? ""); cbn.
    + exact IH.
    + split; discriminate.
Qed.

Lemma full_none (anc : list string) :
  namedAncestors names i anc = [] -> fullPrefix names i anc = "".
Proof.
  unfold fullPrefix. induction anc as [| fs anc IH]; cbn; [reflexivity |].
  unfold segment at 1. destruct (names fs i =? ""); cbn; [exact IH | discriminate].
Qed.

Lemma kept_le_full (anc : list string) :
  String.length (keptPrefix names i anc) <= String.length (fullPrefix names i anc)
  /\ (2 <= length (namedAncestors names i anc) ->
      String.length (keptPrefix names i anc) < String.length (fullPrefix names i anc)).
Proof.
  unfold keptPrefix, fullPrefix. induction anc as [| fs anc [IHle IHlt]]; cbn.
  - split; [lia | intros H; lia].
  - unfold segment at 1 3. destruct (names fs i =? "") eqn:E; cbn.
    + destruct (nearestNamed names i anc); cbn in *; split; assumption.
    + rewrite length_append.
      destruct (nearestNamed names i anc) as [nm |] eqn:En.
      * assert (0 < String.length (names fs i ++ "."))
          by (rewrite length_append; cbn; lia).
        split; [lia | intros _; lia].
      * apply nearestNamed_none in En. unfold namedAncestors in En.
        rewrite En. cbn. split; [lia | intros H; lia].
Qed.

Lemma kept_eq_full (anc : list string) :
  length (namedAncestors names i anc) <= 1 -> keptPrefix names i anc = fullPrefix names i anc.
Proof.
  unfold keptPrefix, fullPrefix. induction anc as [| fs anc IH]; cbn; [reflexivity |].
  unfold segment at 1. destruct (names fs i =? "") eqn:E; cbn.
  - intros H. rewrite <- (IH H).
    destruct (nearestNamed names i anc); reflexivity.
  - intros H.
    fold (namedAncestors names i anc) in H.
    assert (Hnone : namedAncestors names i anc = [])
      by (destruct (namedAncestors names i anc); [reflexivity | cbn in H; lia]).
    fold (fullPrefix names i anc). rewrite (full_none anc Hnone).
    apply nearestNamed_none in Hnone. rewrite Hnone.
    now rewrite append_nil_r.
Qed.

Lemma kept_full_iff (anc : list string) :
  keptPrefix names i anc = fullPrefix names i anc <-> length (namedAncestors names i anc) <= 1.
Proof.
  split; [| apply kept_eq_full].
  intros Heq.
  destruct (Nat.le_gt_cases (length (namedAncestors names i anc)) 1)
    as [H | H]; [exact H |].
  destruct (kept_le_full anc) as [_ Hlt]. specialize (Hlt H).
  rewrite Heq in Hlt. lia.
Qed.

End Prefixes.

Lemma append_cancel_r (a b c : string) : a ++ c = b ++ c -> a = b.
Proof.
  revert b. induction a as [| x a IH]; intros [| y b] H; cbn in H.
  - reflexivity.
  - exfalso. apply (f_equal String.length) in H. cbn in H.
    rewrite length_append in H. lia.
  - exfalso. apply (f_equal String.length) in H. cbn in H.
    rewrite length_append in H. lia.
  - inversion H. f_equal. now apply IH.
Qed.

(** The name [initParams] computes for an annotation is the qualified name
    exactly when at most one ancestor of the field has a key for the
    source of the annotation. *)
Lemma initTagInfo_qualified_iff (ps : list paramInfo) (p : paramInfo)
      (info : tagInfo) :
  NoDup (map fieldSelector ps) ->
  namePath info = "" ->
  namePath (initTagInfo name (collectNames name ps) p
              (fst (FieldSelector_Split (fieldSelector p))) info)
  = qualifiedName name ps p (paramIn info)
  <-> length (namedAncestors (keyOf name ps) (paramIn info)
                             (ancestors p)) <= 1.
Proof.
  intros Hnd Hnp. cbn [initTagInfo namePath]. unfold qualifiedName.
  rewrite walkPaths_nearest, Hnp.
  rewrite (nearestNamed_ext _ (keyOf name ps) (paramIn info) _
             (fun fs => collectNames_keyOf ps fs (paramIn info) Hnd)).
  fold (ancestors p).
  rewrite <- (kept_full_iff (keyOf name ps) (paramIn info) (ancestors p)).
  unfold keptPrefix, fullPrefix.
  split.
  - apply append_cancel_r.
  - intros ->. reflexivity.
Qed.

End NamePathFacts.

(** The annotation [json:"y,required"] of [TestJSON] is named "y". *)
Example initParams_TestJSON_Y :
  compiledTags recv.keyName plans.jsonPlan "Y"
  = [(recv.json, "y",
      Some (recv.mkError "binding failed" "y" "missing required parameter"))].
Proof. reflexivity. Qed.

(** Under one named ancestor the name has the two segments; an embedded
    ancestor adds none. *)
Example initParams_one_ancestor :
  map (fun e => snd (fst e)) (compiledTags recv.keyName plans.jsonPlan "X.A")
  = ["X.a"]
  /\ recv.qualifiedName recv.keyName (recv.params plans.jsonPlan)
       (plans.field "X.A" "A" false [plans.tag recv.json "a" false]) recv.json
     = "X.a".
Proof. split; reflexivity. Qed.

Example initParams_embedded_ancestor :
  map (fun e => snd (fst e)) (compiledTags recv.keyName plans.embeddedPlan "X.Y.Z")
  = ["x.z"]
  /\ recv.qualifiedName recv.keyName (recv.params plans.embeddedPlan)
       plans.deepZ recv.json = "x.z".
Proof. split; reflexivity. Qed.

(** C7: the claim is that the diagnostic name carries the key of each
    ancestor.  For [Z] under [Y] under [X], keyed "z", "y" and "x" for JSON,
    that name is "x.y.z"; [initParams] computes "y.z": the loop over the
    ancestors overwrites the prefix at each named ancestor. *)
Theorem initParams_drops_outer_ancestors :
  map (fun e => snd (fst e)) (compiledTags recv.keyName plans.deepPlan "X.Y.Z")
  = ["y.z"]
  /\ recv.qualifiedName recv.keyName (recv.params plans.deepPlan)
       plans.deepZ recv.json = "x.y.z".
Proof. split; reflexivity. Qed.

Section ResolveFacts.
Import recv resolve.
Variable name : paramInfo -> in_ -> string.
Variable coerces : paramInfo -> list string -> bool.

(** A required annotation whose source reports absence yields the
    missing-required error precomputed for it. *)
Lemma resolveTag_absent_required (src : sources) (p : paramInfo)
      (info : tagInfo) :
  lookup name src p info = None -> required info = true ->
  resolveTag name coerces src p info = requiredError info.
Proof. intros Hl Hr. unfold resolveTag. now rewrite Hl, Hr. Qed.

Lemma firstPresent_split (src : sources) (key : string) (pre : list in_) :
  forall (order : list in_) (s : in_) (post : list in_),
    order = (pre ++ s :: post)%list ->
    (forall i, In i pre -> snd (src i key) = false) ->
    snd (src s key) = true ->
    firstPresent src key order = Some (s, fst (src s key)).
Proof.
  induction pre as [| i pre IH]; intros order s post -> Habs Hs; cbn.
  - now rewrite Hs.
  - rewrite (Habs i (or_introl eq_refl)).
    apply (IH _ s post eq_refl); [| exact Hs].
    intros j Hj. apply Habs. now right.
Qed.

Lemma firstPresent_none (src : sources) (key : string) (order : list in_) :
  (forall i, In i order -> snd (src i key) = false) ->
  firstPresent src key order = None.
Proof.
  induction order as [| i order IH]; intros Habs; cbn; [reflexivity |].
  rewrite (Habs i (or_introl eq_refl)). apply IH.
  intros j Hj. apply Habs. now right.
Qed.

End ResolveFacts.

(** The required field [Y] of [TestJSON], missing from the body. *)
Example bind_TestJSON :
  resolve.bind recv.keyName plans.anyText plans.jsonSources plans.jsonPlan
  = Some (recv.mkError "binding failed" "y" "missing required parameter").
Proof. reflexivity. Qed.

(** C3: the claim is that the missing-required error names the field by
    its qualified external name.  For the required [Z] of [plans.deepPlan],
    keyed "z" under "y" under "x", that name is "x.y.z"; the error that
    [initParams] prepares for it, and that resolution returns on a body
    without it, names "y.z". *)
Theorem required_error_drops_outer_ancestors :
  compiledTags recv.keyName plans.deepPlan "X.Y.Z"
  = [(recv.json, "y.z",
      Some (recv.mkError "binding failed" "y.z" "missing required parameter"))]
  /\ resolve.bind recv.keyName plans.anyText plans.deepSources plans.deepPlan
     = Some (recv.mkError "binding failed" "y.z" "missing required parameter")
  /\ recv.qualifiedName recv.keyName (recv.params plans.deepPlan)
       plans.deepZ recv.json = "x.y.z".
Proof. split; [| split]; reflexivity. Qed.

(** The fields of [TestAuto]: [A] is found in the query string, [C] in the
    form, [Z] nowhere. *)
Example bindAuto_TestAuto :
  map (resolve.bindAuto plans.autoSources)
      [plans.field "X.A" "A" false []; plans.field "X.C" "C" false [];
       plans.field "Z" "Z" false []]
  = [Some (recv.query, ["a1"; "a2"]); Some (recv.form, ["31"; "32"]); None].
Proof. reflexivity. Qed.

(** C1: an [auto] field is looked up under its own identifier in path,
    query, header, cookie, form and the JSON body, in that order, and bound
    from the first source that reports it: a source that reports the key
    while all sources before it do not is the one bound from; a key in both
    the query string and a header is bound from the query string (the path
    not having it); a key no source reports binds nothing. *)
Theorem bindAuto_first_present_source :
  forall (src : resolve.sources) (p : recv.paramInfo),
    (forall (pre : list recv.in_) (s : recv.in_) (post : list recv.in_),
        resolve.autoOrder = (pre ++ s :: post)%list ->
        (forall i, In i pre ->
                   snd (src i (recv.Name (recv.structField p))) = false) ->
        snd (src s (recv.Name (recv.structField p))) = true ->
        resolve.bindAuto src p
        = Some (s, fst (src s (recv.Name (recv.structField p)))))
    /\ resolve.autoOrder
       = [recv.path; recv.query; recv.header; recv.cookie; recv.form; recv.json]
    /\ (snd (src recv.query (recv.Name (recv.structField p))) = true ->
        snd (src recv.header (recv.Name (recv.structField p))) = true ->
        snd (src recv.path (recv.Name (recv.structField p))) = false ->
        resolve.bindAuto src p
        = Some (recv.query,
                fst (src recv.query (recv.Name (recv.structField p)))))
    /\ ((forall i, In i resolve.autoOrder ->
                   snd (src i (recv.Name (recv.structField p))) = false) ->
        resolve.bindAuto src p = None).
Proof.
  intros src p. unfold resolve.bindAuto.
  split; [| split; [reflexivity | split]].
  - intros pre s post Hord Habs Hs.
    now apply (firstPresent_split src _ pre _ s post).
  - intros Hq _ Hp.
    apply (firstPresent_split src _ [recv.path] _ recv.query
             [recv.header; recv.cookie; recv.form; recv.json]);
      [reflexivity | | exact Hq].
    intros i [<- | []]. exact Hp.
  - apply firstPresent_none.
Qed.

Lemma bindAuto_first_present_source_witness :
  snd (plans.queryAndHeader recv.query "A") = true
  /\ snd (plans.queryAndHeader recv.header "A") = true
  /\ snd (plans.queryAndHeader recv.path "A") = false
  /\ resolve.bindAuto plans.queryAndHeader (plans.field "A" "A" false [])
     = Some (recv.query, ["from-query"]).
Proof.
  split; [reflexivity |]. split; [reflexivity |]. split; [reflexivity |].
  apply (proj1 (proj2 (proj2 (bindAuto_first_present_source
                                plans.queryAndHeader
                                (plans.field "A" "A" false [])))));
    reflexivity.
Defined.

(* ================================================================= *)
(** * Further properties: func.go *)

Section RegistryFacts.
Import reflect func.
Context {D : Type}.

(** A registration stopped by the kind check leaves the world as it was. *)
Lemma RegTypeUnmarshal_stopped (t : rtype) (fn : converter D) (w : World D) :
  builtinScalar t = true \/ pointerShaped t = true ->
  snd (RegTypeUnmarshal t fn w) = w
  /\ (fst (RegTypeUnmarshal t fn w)
      = Returns (Some "registration type cannot be a basic type")
      \/ fst (RegTypeUnmarshal t fn w)
         = Returns (Some "registration type cannot be a pointer type")).
Proof.
  intros [H | H].
  - destruct t as [k | | |]; try discriminate.
    destruct k; try discriminate; (split; [reflexivity | left; reflexivity]).
  - destruct t as [k | p n k | e | e]; try discriminate.
    + destruct k; try discriminate. split; [reflexivity | right; reflexivity].
    + destruct k; try discriminate. split; [reflexivity | right; reflexivity].
    + split; [reflexivity | right; reflexivity].
Qed.

Lemma kind_check_cases (t : rtype) :
  (builtinScalar t = true \/ pointerShaped t = true)
  \/ (builtinScalar t = false /\ pointerShaped t = false).
Proof.
  destruct (builtinScalar t), (pointerShaped t); auto.
Qed.

Lemma rtype_eqb_false (a b : rtype) : a <> b -> rtype_eqb a b = false.
Proof. unfold rtype_eqb. destruct (rtype_eq_dec a b); congruence. Qed.

(** A registration whose self-test passes, run from [w]. *)
Lemma RegTypeUnmarshal_passed (t : rtype) (fn : converter D) (w : World D) :
  builtinScalar t = false -> pointerShaped t = false ->
  selfTestPasses t fn ->
  RegTypeUnmarshal t fn w
  = (Returns None,
     mkWorld (stored t fn (typeUnmarshalFuncs w)) (invoked w ++ [("", true)])).
Proof.
  intros Hb Hp [Herr Hty]. rewrite (RegTypeUnmarshal_tested t fn w Hb Hp).
  rewrite Herr, Hty, rtype_eqb_refl. reflexivity.
Qed.

(** What [unsafeUnmarshalValue] does with a converter registered for the
    type of the target. *)
Lemma unsafeUnmarshalValue_registered (dec : Decoders) (w : World D)
      (target : Value D) (t : rtype) (fn : converter D) (s : string)
      (loose : bool) :
  Value_Type target = Some t ->
  typeUnmarshalFuncs w t = Some fn ->
  unsafeUnmarshalValue dec target s loose w
  = match snd (fn s loose) with
    | Some err => (Returns (target, Some err), afterCalls w [(s, loose)])
    | None =>
        match Value_Set target (fst (fn s loose)) with
        | Some v' => (Returns (v', None), afterCalls w [(s, loose)])
        | None => (Panics "reflect.Set: value is not assignable",
                   afterCalls w [(s, loose)])
        end
    end.
Proof.
  intros Hty Hreg. unfold unsafeUnmarshalValue, bind, orPanic, lookupFunc.
  rewrite Hty. cbn. rewrite Hreg. unfold call. cbn.
  destruct (fn s loose) as [vv [err |]]; cbn; [reflexivity |].
  destruct (Value_Set target vv); reflexivity.
Qed.

(** [unmarshalSlice] with a converter that, where it reports no error,
    yields a value of the element type: it returns, having converted the
    texts up to the first one that fails. *)
Lemma unmarshalSlice_range_typed (fn : converter D) (t : rtype) (loose : bool)
      (a : list string) :
  (forall s, In s a -> snd (fn s loose) = None ->
             Value_Type (fst (fn s loose)) = Some t) ->
  forall (acc : list (Value D)) (w : World D),
  exists (k : nat) (err : option error),
    Forall (fun s => snd (fn s loose) = None) (firstn k a)
    /\ match err with
       | None => k = length a
       | Some e => exists s, nth_error a k = Some s /\ snd (fn s loose) = Some e
       end
    /\ unmarshalSlice_range fn a loose (SliceVal t acc) w
       = (Returns (SliceVal t (acc ++ converted fn loose (firstn k a)), err),
          afterCalls w (callsFor loose
                          (firstn (match err with None => k | Some _ => S k end)
                                  a))).
Proof.
  induction a as [| s a IH]; intros Hty acc w.
  - exists 0, None. cbn. rewrite app_nil_r, afterCalls_nil. auto.
  - cbn [unmarshalSlice_range]. unfold bind at 1, call at 1. cbn.
    destruct (snd (fn s loose)) as [e |] eqn:He.
    + exists 0, (Some e). cbn. rewrite app_nil_r.
      split; [constructor | split; [| reflexivity]].
      exists s. split; [reflexivity | exact He].
    + unfold bind at 1. cbn.
      rewrite (Hty s (or_introl eq_refl) He), rtype_eqb_refl. cbn.
      destruct (IH (fun s' Hs' => Hty s' (or_intror Hs'))
                   (acc ++ [fst (fn s loose)])%list
                   (mkWorld (typeUnmarshalFuncs w) (invoked w ++ [(s, loose)])))
        as [k [err [Hall [Herr Hrun]]]].
      exists (S k), err. split; [cbn; constructor; assumption |].
      split.
      * destruct err as [e |]; cbn; [exact Herr | now rewrite Herr].
      * rewrite Hrun. unfold converted, callsFor, afterCalls. cbn.
        rewrite <- !app_assoc. cbn.
        destruct err; reflexivity.
Qed.

End RegistryFacts.

(** X1: a registration, whatever its outcome, leaves the converters of all
    other types as they were. *)
Theorem RegTypeUnmarshal_other_types_untouched :
  forall (D : Type) (t u : reflect.rtype) (fn : func.converter D)
         (w : func.World D),
    u <> t ->
    func.typeUnmarshalFuncs (snd (func.RegTypeUnmarshal t fn w)) u
    = func.typeUnmarshalFuncs w u.
Proof.
  intros D t u fn w Hne.
  destruct (kind_check_cases t) as [Hrej | [Hb Hp]].
  - now rewrite (proj1 (RegTypeUnmarshal_stopped t fn w Hrej)).
  - rewrite (RegTypeUnmarshal_tested t fn w Hb Hp).
    destruct (snd (fn "" true)); [reflexivity |].
    destruct (reflect.Value_Type (fst (fn "" true))) as [tt' |]; [| reflexivity].
    destruct (reflect.rtype_eqb tt' t); [| reflexivity].
    cbn. unfold stored. now rewrite (rtype_eqb_false u t Hne).
Qed.

Lemma RegTypeUnmarshal_other_types_untouched_witness :
  func.timeType <> sample.Celsius
  /\ func.typeUnmarshalFuncs
       (snd (func.RegTypeUnmarshal sample.Celsius sample.celsiusConv
               sample.world0)) func.timeType
     = None.
Proof.
  split; [discriminate |].
  apply (RegTypeUnmarshal_other_types_untouched Z sample.Celsius func.timeType
           sample.celsiusConv sample.world0).
  discriminate.
Defined.

(** X2: [kindTypeMap] has an entry for every kind the switch of
    [RegTypeUnmarshal] lists: the error "basic type not supported in map" is
    never returned. *)
Theorem RegTypeUnmarshal_map_error_unreachable :
  forall (D : Type) (t : reflect.rtype) (fn : func.converter D)
         (w : func.World D),
    fst (func.RegTypeUnmarshal t fn w)
    <> func.Returns (Some "basic type not supported in map").
Proof.
  intros D t fn w.
  destruct (kind_check_cases t) as [Hrej | [Hb Hp]].
  - destruct (RegTypeUnmarshal_stopped t fn w Hrej) as [_ [H | H]];
      rewrite H; discriminate.
  - rewrite (RegTypeUnmarshal_tested t fn w Hb Hp).
    destruct (snd (fn "" true)); [cbn; discriminate |].
    destruct (reflect.Value_Type (fst (fn "" true))) as [tt' |];
      [| cbn; discriminate].
    destruct (reflect.rtype_eqb tt' t); cbn; discriminate.
Qed.

(** X3: once a converter is registered for a type, [unsafeUnmarshalValue] on
    a target of that type runs that converter on the text and stores its
    value in the target; the decoders are not consulted. *)
Theorem registered_converter_is_used :
  forall (D : Type) (dec : func.Decoders) (t : reflect.rtype)
         (fn : func.converter D) (w : func.World D)
         (target vv : reflect.Value D) (s : string) (loose : bool),
    builtinScalar t = false -> pointerShaped t = false ->
    selfTestPasses t fn ->
    reflect.Value_Type target = Some t ->
    fn s loose = (vv, None) ->
    reflect.Value_Type vv = Some t ->
    func.unsafeUnmarshalValue dec target s loose
      (snd (func.RegTypeUnmarshal t fn w))
    = (func.Returns (vv, None),
       func.mkWorld (stored t fn (func.typeUnmarshalFuncs w))
                    (func.invoked w ++ [("", true); (s, loose)])).
Proof.
  intros D dec t fn w target vv s loose Hb Hp Hself Htgt Hfn Hvv.
  rewrite (RegTypeUnmarshal_passed t fn w Hb Hp Hself). cbn [snd].
  rewrite (unsafeUnmarshalValue_registered dec _ target t fn s loose Htgt).
  - rewrite Hfn. cbn [fst snd]. unfold reflect.Value_Set.
    rewrite Htgt, Hvv, rtype_eqb_refl. unfold afterCalls. cbn.
    now rewrite <- app_assoc.
  - cbn. unfold stored. now rewrite rtype_eqb_refl.
Qed.

Lemma registered_converter_is_used_witness :
  func.unsafeUnmarshalValue
    sample2.plainDecoders
    (reflect.Of sample.Celsius 0%Z) "boiling" false
    (snd (func.RegTypeUnmarshal sample.Celsius sample.celsiusConv sample.world0))
  = (func.Returns (reflect.Of sample.Celsius 100%Z, None),
     func.mkWorld (stored sample.Celsius sample.celsiusConv (fun _ => None))
                  [("", true); ("boiling", false)]).
Proof.
  apply (registered_converter_is_used Z sample2.plainDecoders sample.Celsius
           sample.celsiusConv
           sample.world0 (reflect.Of sample.Celsius 0%Z)
           (reflect.Of sample.Celsius 100%Z) "boiling" false);
    try reflexivity.
  split; reflexivity.
Defined.

(** X4: when the converter registered for the type of the target reports an
    error, [unsafeUnmarshalValue] returns that error and the target keeps
    what it held. *)
Theorem unsafeUnmarshalValue_error_keeps_target :
  forall (D : Type) (dec : func.Decoders) (t : reflect.rtype)
         (fn : func.converter D) (w : func.World D)
         (target : reflect.Value D) (s : string) (loose : bool) (e : error),
    reflect.Value_Type target = Some t ->
    func.typeUnmarshalFuncs w t = Some fn ->
    snd (fn s loose) = Some e ->
    func.unsafeUnmarshalValue dec target s loose w
    = (func.Returns (target, Some e), afterCalls w [(s, loose)]).
Proof.
  intros D dec t fn w target s loose e Htgt Hreg He.
  rewrite (unsafeUnmarshalValue_registered dec w target t fn s loose Htgt Hreg).
  now rewrite He.
Qed.

Lemma unsafeUnmarshalValue_error_keeps_target_witness :
  func.unsafeUnmarshalValue
    sample2.plainDecoders
    (reflect.Of sample.Celsius 21%Z) "tepid" true
    sample2.celsiusWorld
  = (func.Returns (reflect.Of sample.Celsius 21%Z, Some "not a temperature"),
     func.mkWorld (stored sample.Celsius sample.celsiusConv (fun _ => None))
                  [("tepid", true)]).
Proof.
  apply (unsafeUnmarshalValue_error_keeps_target Z sample2.plainDecoders
           sample.Celsius sample.celsiusConv); reflexivity.
Defined.

(** X5: for a target whose type has no registered converter,
    [unsafeUnmarshalValue] runs no converter and gives what [unmarshal]
    gives; [unmarshal] uses the target's [UnmarshalJSON] when it has one,
    also when it is a protobuf unmarshaler as well. *)
Theorem unsafeUnmarshalValue_without_converter :
  forall (D : Type) (dec : func.Decoders) (t : reflect.rtype)
         (w : func.World D) (target : reflect.Value D) (s : string)
         (loose : bool),
    reflect.Value_Type target = Some t ->
    func.typeUnmarshalFuncs w t = None ->
    func.unsafeUnmarshalValue dec target s loose w
    = (func.Returns (func.unmarshal dec s target), w)
    /\ (func.isJSONUnmarshaler dec target = true ->
        func.unmarshal dec s target = func.UnmarshalJSON dec s target).
Proof.
  intros D dec t w target s loose Htgt Hreg. split.
  - unfold func.unsafeUnmarshalValue, func.bind, func.orPanic, func.lookupFunc.
    rewrite Htgt. cbn. now rewrite Hreg.
  - intros H. unfold func.unmarshal. now rewrite H.
Qed.

Lemma unsafeUnmarshalValue_without_converter_witness :
  func.unsafeUnmarshalValue
    sample2.bothDecoders
    (reflect.Of sample.Celsius 0%Z) "{}" false sample.world0
  = (func.Returns (reflect.Of sample.Celsius 1%Z, None), sample.world0).
Proof.
  exact (proj1 (unsafeUnmarshalValue_without_converter Z sample2.bothDecoders
                  sample.Celsius sample.world0 (reflect.Of sample.Celsius 0%Z)
                  "{}" false eq_refl eq_refl)).
Defined.

(** X6: of two registrations that succeed, the later one wins for its type
    and the earlier one stays for a different type; each ran its self-test
    once. *)
Theorem RegTypeUnmarshal_twice :
  forall (D : Type) (t1 t2 : reflect.rtype) (fn1 fn2 : func.converter D)
         (w : func.World D),
    builtinScalar t1 = false -> pointerShaped t1 = false ->
    builtinScalar t2 = false -> pointerShaped t2 = false ->
    selfTestPasses t1 fn1 -> selfTestPasses t2 fn2 ->
    let w2 := snd (func.RegTypeUnmarshal t2 fn2
                     (snd (func.RegTypeUnmarshal t1 fn1 w))) in
    func.typeUnmarshalFuncs w2 t2 = Some fn2
    /\ (t1 <> t2 -> func.typeUnmarshalFuncs w2 t1 = Some fn1)
    /\ func.invoked w2 = (func.invoked w ++ [("", true); ("", true)])%list.
Proof.
  intros D t1 t2 fn1 fn2 w Hb1 Hp1 Hb2 Hp2 Hs1 Hs2.
  rewrite (RegTypeUnmarshal_passed t1 fn1 w Hb1 Hp1 Hs1). cbn [snd].
  rewrite (RegTypeUnmarshal_passed t2 fn2 _ Hb2 Hp2 Hs2). cbn.
  unfold stored. rewrite rtype_eqb_refl.
  split; [reflexivity |]. split.
  - intros Hne. now rewrite (rtype_eqb_false t1 t2 Hne), rtype_eqb_refl.
  - now rewrite <- app_assoc.
Qed.

Lemma RegTypeUnmarshal_twice_witness :
  func.typeUnmarshalFuncs
    (snd (func.RegTypeUnmarshal sample.Celsius sample2.fiveConv
            (snd (func.RegTypeUnmarshal sample.Celsius sample.celsiusConv
                    sample.world0)))) sample.Celsius
  = Some sample2.fiveConv.
Proof.
  apply (RegTypeUnmarshal_twice Z sample.Celsius sample.Celsius
           sample.celsiusConv sample2.fiveConv sample.world0);
    try reflexivity; split; reflexivity.
Defined.

(** X7: with a converter that yields a value of the element type wherever
    it reports no error, [unmarshalSlice] returns for every list of texts:
    either every text converted and the slice has a value for each, or the
    slice has the values of the texts before the first one that fails and the
    error is that text's; the converter was run on no text after it. *)
Theorem unmarshalSlice_typed_converter_returns :
  forall (D : Type) (fn : func.converter D) (t : reflect.rtype) (loose : bool)
         (a : list string) (w : func.World D),
    (forall s, In s a -> snd (fn s loose) = None ->
               reflect.Value_Type (fst (fn s loose)) = Some t) ->
    exists (k : nat) (err : option error),
      Forall (fun s => snd (fn s loose) = None) (firstn k a)
      /\ match err with
         | None => k = length a
         | Some e =>
             exists s, nth_error a k = Some s /\ snd (fn s loose) = Some e
         end
      /\ func.unmarshalSlice fn t a loose w
         = (func.Returns
              (reflect.SliceVal t (converted fn loose (firstn k a)), err),
            afterCalls w
              (callsFor loose
                 (firstn (match err with None => k | Some _ => S k end) a))).
Proof.
  intros D fn t loose a w Hty.
  destruct (unmarshalSlice_range_typed fn t loose a Hty [] w)
    as [k [err [Hall [Herr Hrun]]]].
  exists k, err. repeat split; assumption.
Qed.

Lemma unmarshalSlice_typed_converter_returns_witness :
  exists (k : nat) (err : option error),
    Forall (fun s => snd (sample.celsiusConv s true) = None)
           (firstn k ["body"; "tepid"; "boiling"])
    /\ match err with
       | None => k = 3
       | Some e =>
           exists s, nth_error ["body"; "tepid"; "boiling"] k = Some s
                     /\ snd (sample.celsiusConv s true) = Some e
       end
    /\ func.unmarshalSlice sample.celsiusConv sample.Celsius
         ["body"; "tepid"; "boiling"] true sample.world0
       = (func.Returns
            (reflect.SliceVal sample.Celsius
               (converted sample.celsiusConv true
                  (firstn k ["body"; "tepid"; "boiling"])), err),
          afterCalls sample.world0
            (callsFor true
               (firstn (match err with None => k | Some _ => S k end)
                       ["body"; "tepid"; "boiling"]))).
Proof.
  apply (unmarshalSlice_typed_converter_returns Z sample.celsiusConv
           sample.Celsius true ["body"; "tepid"; "boiling"] sample.world0).
  intros s [<- | [<- | [<- | []]]]; intros H; try reflexivity; discriminate.
Defined.

(** X8: when the converter answers a text with the zero Value and no error,
    [unmarshalSlice] does not return an error: it panics in
    [reflect.Append]. *)
Theorem unmarshalSlice_zero_value_panics :
  forall (D : Type) (fn : func.converter D) (t : reflect.rtype) (loose : bool)
         (done rest : list string) (s : string) (w : func.World D),
    Forall (convertsTo fn loose t) done ->
    fn s loose = (reflect.Zero, None) ->
    exists msg : string,
      fst (func.unmarshalSlice fn t (done ++ s :: rest) loose w)
      = func.Panics msg.
Proof.
  intros D fn t loose done rest s w Hall Hzero.
  unfold func.unmarshalSlice, reflect.NewSlice.
  rewrite (unmarshalSlice_range_app fn t loose done (s :: rest) Hall).
  cbn. unfold func.bind, func.call. cbn. rewrite Hzero. cbn.
  eexists. reflexivity.
Qed.

Lemma unmarshalSlice_zero_value_panics_witness :
  exists msg : string,
    fst (func.unmarshalSlice sample2.looseConv sample.Celsius
           (["a"] ++ "oops" :: ["b"]) false sample.world0)
    = func.Panics msg.
Proof.
  apply (unmarshalSlice_zero_value_panics Z sample2.looseConv
           sample.Celsius false ["a"] ["b"] "oops" sample.world0).
  - repeat constructor.
  - reflexivity.
Defined.

(** X9: the converter that [init] registers for [time.Time] yields a value
    of type [time.Time] whenever it reports no error, and the zero Value
    with every error; so [unmarshalSlice] with it returns for every list of
    texts. *)
Theorem timeUnmarshal_well_typed :
  forall (Time : Type) (zeroTime : Time) (parseRFC3339 : string -> Time + error)
         (D : Type) (ofTime : Time -> D),
    (forall (v : string) (b : bool),
        match snd (func.timeUnmarshal Time zeroTime parseRFC3339 ofTime v b) with
        | None =>
            reflect.Value_Type
              (fst (func.timeUnmarshal Time zeroTime parseRFC3339 ofTime v b))
            = Some func.timeType
        | Some _ =>
            fst (func.timeUnmarshal Time zeroTime parseRFC3339 ofTime v b)
            = reflect.Zero
        end)
    /\ (forall (a : list string) (loose : bool) (w : func.World D),
          exists (v : reflect.Value D) (err : option error),
            fst (func.unmarshalSlice
                   (func.timeUnmarshal Time zeroTime parseRFC3339 ofTime)
                   func.timeType a loose w)
            = func.Returns (v, err)).
Proof.
  intros Time zeroTime parse D ofTime.
  assert (Hty : forall v b,
    match snd (func.timeUnmarshal Time zeroTime parse ofTime v b) with
    | None =>
        reflect.Value_Type
          (fst (func.timeUnmarshal Time zeroTime parse ofTime v b))
        = Some func.timeType
    | Some _ =>
        fst (func.timeUnmarshal Time zeroTime parse ofTime v b) = reflect.Zero
    end).
  { intros v b. unfold func.timeUnmarshal.
    destruct ((v =? "") && b); [reflexivity |].
    destruct (parse v); reflexivity. }
  split; [exact Hty |].
  intros a loose w.
  destruct (unmarshalSlice_range_typed
              (func.timeUnmarshal Time zeroTime parse ofTime) func.timeType
              loose a) with (acc := @nil (reflect.Value D)) (w := w)
    as [k [err [_ [_ Hrun]]]].
  - intros s _ Hs. specialize (Hty s loose). now rewrite Hs in Hty.
  - unfold func.unmarshalSlice, reflect.NewSlice. rewrite Hrun.
    eexists. eexists. reflexivity.
Qed.

(* ================================================================= *)
(** * Further properties: receiver.go *)

Section PlanFacts.
Import recv.

Lemma getParam_range_found (ps : list paramInfo) (sel : string) (p : paramInfo) :
  getParam_range ps sel = Some p -> fieldSelector p = sel /\ In p ps.
Proof.
  induction ps as [| q ps IH]; cbn; [discriminate |].
  destruct (String.eqb_spec (fieldSelector q) sel) as [E | E].
  - intros H. inversion H. subst. auto.
  - intros H. destruct (IH H). auto.
Qed.

Lemma getParam_range_app (ps qs : list paramInfo) (sel : string) :
  getParam_range (ps ++ qs) sel
  = match getParam_range ps sel with
    | Some p => Some p
    | None => getParam_range qs sel
    end.
Proof.
  induction ps as [| q ps IH]; cbn; [reflexivity |].
  destruct (fieldSelector q =? sel); [reflexivity | exact IH].
Qed.

End PlanFacts.

(** X10: [getOrAddParam] returns the descriptor that [getParam] finds under
    the selector afterwards; the descriptors of other selectors are found as
    before; asking again, with whatever field and factory, returns the same
    descriptor and adds nothing. *)
Theorem getOrAddParam_then_getParam :
  forall (r : recv.receiver) (sel : string) (sf : recv.StructField)
         (factory : string -> string -> recv.Error),
    recv.getParam (snd (recv.getOrAddParam r sel sf factory)) sel
    = Some (fst (recv.getOrAddParam r sel sf factory))
    /\ recv.fieldSelector (fst (recv.getOrAddParam r sel sf factory)) = sel
    /\ (forall sel', sel' <> sel ->
          recv.getParam (snd (recv.getOrAddParam r sel sf factory)) sel'
          = recv.getParam r sel')
    /\ (forall (sf' : recv.StructField)
               (factory' : string -> string -> recv.Error),
          recv.getOrAddParam (snd (recv.getOrAddParam r sel sf factory))
                             sel sf' factory'
          = recv.getOrAddParam r sel sf factory).
Proof.
  intros r sel sf factory. unfold recv.getOrAddParam, recv.getParam.
  destruct (recv.getParam_range (recv.params r) sel) as [p |] eqn:E; cbn.
  - split; [exact E |].
    split; [exact (proj1 (getParam_range_found _ _ _ E)) |].
    split; [reflexivity |].
    intros sf' factory'. now rewrite E.
  - rewrite getParam_range_app, E. cbn. rewrite String.eqb_refl.
    split; [reflexivity |]. split; [reflexivity |].
    split.
    + intros sel' Hne. rewrite getParam_range_app. cbn.
      destruct (recv.getParam_range (recv.params r) sel'); [reflexivity |].
      destruct (String.eqb_spec sel sel'); [congruence | reflexivity].
    + intros sf' factory'. reflexivity.
Qed.

Lemma getOrAddParam_then_getParam_witness :
  recv.getParam
    (snd (recv.getOrAddParam plans.deepPlan "X.W" (recv.mkStructField "W" false)
            recv.defaultErrorFactory)) "X.Y.Z"
  = recv.getParam plans.deepPlan "X.Y.Z".
Proof.
  apply (proj1 (proj2 (proj2 (getOrAddParam_then_getParam plans.deepPlan "X.W"
                                (recv.mkStructField "W" false)
                                recv.defaultErrorFactory)))).
  discriminate.
Defined.

Lemma getOrAddParam_NoDup_witness :
  NoDup (map recv.fieldSelector (recv.params plans.deepPlan))
  /\ NoDup (map recv.fieldSelector
              (recv.params
                 (snd (recv.getOrAddParam plans.deepPlan "X.Y"
                         (recv.mkStructField "Y" false)
                         recv.defaultErrorFactory)))).
Proof.
  assert (H : NoDup (map recv.fieldSelector (recv.params plans.deepPlan))).
  { cbn. repeat constructor; cbn; intuition discriminate. }
  split; [exact H |].
  apply (getOrAddParam_NoDup plans.deepPlan "X.Y" (recv.mkStructField "Y" false)
           recv.defaultErrorFactory H).
Defined.

Section CodecFacts.
Import recv codecs.

Lemma strings_Index_bound (s : string) (c : ascii) :
  (strings_Index s c = -1 \/ 0 <= strings_Index s c)%Z.
Proof.
  induction s as [| x s IH]; cbn; [now left |].
  destruct (Ascii.eqb x c); [right; lia |].
  destruct (Z.eqb_spec (strings_Index s c) (-1)); [now left | right; lia].
Qed.

Lemma strings_Index_app_found (a p : string) (c : ascii) :
  strings_Index a c = (-1)%Z ->
  strings_Index (a ++ String c p) c = Z.of_nat (String.length a).
Proof.
  induction a as [| x a IH]; cbn [append strings_Index String.length].
  - intros _. now rewrite Ascii.eqb_refl.
  - destruct (Ascii.eqb x c); [discriminate |].
    destruct (Z.eqb_spec (strings_Index a c) (-1)) as [E | E].
    + intros _. rewrite (IH E).
      destruct (Z.eqb_spec (Z.of_nat (String.length a)) (-1)); lia.
    + destruct (strings_Index_bound a c); intros; lia.
Qed.

Lemma strings_Index_app_absent (a b : string) (c : ascii) :
  strings_Index a c = (-1)%Z -> strings_Index b c = (-1)%Z ->
  strings_Index (a ++ b) c = (-1)%Z.
Proof.
  intros Ha Hb. induction a as [| x a IH]; cbn in *; [exact Hb |].
  destruct (Ascii.eqb x c); [discriminate |].
  destruct (Z.eqb_spec (strings_Index a c) (-1)) as [E | E].
  - now rewrite (IH E).
  - destruct (strings_Index_bound a c); lia.
Qed.

Lemma string_append_assoc (a b c : string) : a ++ b ++ c = (a ++ b) ++ c.
Proof. induction a as [| x a IH]; cbn; [reflexivity | now rewrite IH]. Qed.

Lemma strings_Index_spaces (n : nat) : strings_Index (spaces n) ";" = (-1)%Z.
Proof. induction n as [| n IH]; cbn; [reflexivity | now rewrite IH]. Qed.

Lemma substring_prefix (a b : string) :
  substring 0 (String.length a) (a ++ b) = a.
Proof.
  induction a as [| x a IH]; cbn.
  - destruct b; reflexivity.
  - now rewrite IH.
Qed.

Lemma strings_TrimRight_spaces (n : nat) : strings_TrimRight (spaces n) = "".
Proof. induction n as [| n IH]; cbn; [reflexivity | now rewrite IH]. Qed.

Lemma strings_TrimRight_app_spaces (a : string) (n : nat) :
  strings_TrimRight (a ++ spaces n) = strings_TrimRight a.
Proof.
  induction a as [| x a IH]; cbn; [apply strings_TrimRight_spaces |].
  now rewrite IH.
Qed.

(** The content type with parameters after the media type [mt]. *)
Lemma getBodyCodec_with_parameters (r : receiver) (mt p : string) :
  strings_Index mt ";" = (-1)%Z ->
  getBodyCodec r (withContentType (mt ++ String ";" p))
  = codecOf (strings_TrimRight mt).
Proof.
  intros H. unfold getBodyCodec, withContentType. cbn [Header_Get].
  rewrite String.eqb_refl. rewrite (strings_Index_app_found mt p ";" H).
  destruct (Z.eqb_spec (Z.of_nat (String.length mt)) (-1)); [lia |].
  cbn [negb]. now rewrite Nat2Z.id, substring_prefix.
Qed.

(** The media types that [getBodyCodec] knows. *)
Lemma codecOf_known (mt : string) :
  codecOf mt <> bodyUnsupport ->
  mt = "application/json" \/ mt = "application/x-protobuf"
  \/ mt = "application/x-www-form-urlencoded" \/ mt = "multipart/form-data".
Proof.
  unfold codecOf.
  destruct (String.eqb_spec mt "application/json"); [auto |].
  destruct (String.eqb_spec mt "application/x-protobuf"); [auto |].
  destruct (String.eqb_spec mt "application/x-www-form-urlencoded"); [auto |].
  destruct (String.eqb_spec mt "multipart/form-data"); [auto |].
  cbn. intros H. now elim H.
Qed.

End CodecFacts.

(** X12: [getBodyCodec] looks at the content type up to its first ";" only:
    whatever parameters follow, the codec is that of the text before the
    ";" with its trailing spaces removed.  Without a ";" the content type is
    taken whole. *)
Theorem getBodyCodec_ignores_parameters :
  forall (r : recv.receiver) (mt p : string),
    codecs.strings_Index mt ";" = (-1)%Z ->
    codecs.getBodyCodec r (codecs.withContentType (mt ++ ";" ++ p))
    = codecs.codecOf (codecs.strings_TrimRight mt)
    /\ codecs.getBodyCodec r (codecs.withContentType mt) = codecs.codecOf mt.
Proof.
  intros r mt p H. split.
  - exact (getBodyCodec_with_parameters r mt p H).
  - unfold codecs.getBodyCodec, codecs.withContentType. cbn [codecs.Header_Get].
    rewrite String.eqb_refl, H. reflexivity.
Qed.

Lemma getBodyCodec_ignores_parameters_witness :
  codecs.getBodyCodec plans.bodyPlan
    (codecs.withContentType ("application/json" ++ ";" ++ " charset=utf-8"))
  = recv.bodyJSON.
Proof.
  apply (proj1 (getBodyCodec_ignores_parameters plans.bodyPlan
                  "application/json" " charset=utf-8" eq_refl)).
Defined.

(** X13: spaces after a media type are removed only when a ";" follows: a
    known media type followed by spaces alone is not recognised, the same
    text followed by ";" and parameters is. *)
Theorem getBodyCodec_trailing_spaces :
  forall (r : recv.receiver) (mt p : string) (n : nat),
    codecs.codecOf mt <> recv.bodyUnsupport ->
    codecs.getBodyCodec r (codecs.withContentType (mt ++ codecs.spaces (S n)))
    = recv.bodyUnsupport
    /\ codecs.getBodyCodec r
         (codecs.withContentType (mt ++ codecs.spaces n ++ ";" ++ p))
       = codecs.codecOf mt.
Proof.
  intros r mt p n Hknown.
  assert (Hmt : codecs.strings_Index mt ";" = (-1)%Z
                /\ codecs.strings_TrimRight mt = mt
                /\ codecs.codecOf (mt ++ codecs.spaces (S n)) = recv.bodyUnsupport).
  { destruct (codecOf_known mt Hknown) as [-> | [-> | [-> | ->]]];
      (split; [reflexivity | split; reflexivity]). }
  destruct Hmt as [Hidx [Htrim Hun]]. split.
  - unfold codecs.getBodyCodec, codecs.withContentType. cbn [codecs.Header_Get].
    rewrite String.eqb_refl.
    rewrite (strings_Index_app_absent mt (codecs.spaces (S n)) ";" Hidx
               (strings_Index_spaces (S n))).
    exact Hun.
  - change (";" ++ p) with (String ";" p).
    rewrite string_append_assoc, getBodyCodec_with_parameters.
    + now rewrite strings_TrimRight_app_spaces, Htrim.
    + apply strings_Index_app_absent; [exact Hidx | apply strings_Index_spaces].
Qed.

Lemma getBodyCodec_trailing_spaces_witness :
  codecs.getBodyCodec plans.bodyPlan
    (codecs.withContentType ("multipart/form-data" ++ codecs.spaces 2))
  = recv.bodyUnsupport
  /\ codecs.getBodyCodec plans.bodyPlan
       (codecs.withContentType
          ("multipart/form-data" ++ codecs.spaces 1 ++ ";" ++ " boundary=xyz"))
     = recv.bodyForm.
Proof.
  apply (getBodyCodec_trailing_spaces plans.bodyPlan "multipart/form-data"
           " boundary=xyz" 1).
  discriminate.
Defined.

(** X14: [getPostForm] parses the form at most once for a request: run again
    on the request it leaves, it returns the same form and leaves the request
    as it is; and the error it returns is always nil. *)
Theorem getPostForm_idempotent :
  forall (r : recv.receiver) (req : recv.Request) (bodyCodec : recv.codec),
    recv.getPostForm r (snd (recv.getPostForm r req bodyCodec)) bodyCodec
    = recv.getPostForm r req bodyCodec
    /\ snd (fst (recv.getPostForm r req bodyCodec)) = None.
Proof.
  intros r req bodyCodec. unfold recv.getPostForm.
  destruct (recv.in_eqb bodyCodec recv.bodyForm && recv.hasBody r) eqn:E;
    cbn [fst snd]; rewrite ?E; [| split; reflexivity].
  destruct (recv.PostForm req) eqn:Ep; cbn.
  - rewrite Ep. split; reflexivity.
  - split; reflexivity.
Qed.

(** X15: [prebindBody] returns an error for the protobuf codec only; with
    the JSON codec the body is handed to the JSON assigner and the error is
    nil whatever the body holds; with any other codec the record is left as
    it is. *)
Theorem prebindBody_errors_only_for_protobuf :
  forall (T : Type) (jsonAssign : string -> T -> T)
         (protoUnmarshal : list Byte.byte -> T -> T * option error)
         (tgt : recv.Target T) (bodyCodec : recv.codec)
         (bodyBytes : list Byte.byte),
    (forall e : error,
        fst (recv.prebindBody jsonAssign protoUnmarshal tgt bodyCodec bodyBytes)
        = Some e ->
        bodyCodec = recv.bodyProtobuf)
    /\ (bodyCodec = recv.bodyJSON ->
        recv.prebindBody jsonAssign protoUnmarshal tgt bodyCodec bodyBytes
        = (None,
           recv.mkTarget (recv.isProtoMessage tgt)
             (jsonAssign (recv.BytesToString bodyBytes) (recv.content tgt))
             (recv.decodedBy tgt ++ [recv.bodyJSON])))
    /\ (bodyCodec <> recv.bodyJSON -> bodyCodec <> recv.bodyProtobuf ->
        recv.prebindBody jsonAssign protoUnmarshal tgt bodyCodec bodyBytes
        = (None, tgt)).
Proof.
  intros T jsonAssign protoUnmarshal tgt bodyCodec bodyBytes.
  split; [| split].
  - intros e. destruct bodyCodec; cbn; try discriminate. reflexivity.
  - intros ->. reflexivity.
  - intros Hj Hp. destruct bodyCodec; try reflexivity; contradiction.
Qed.

Lemma prebindBody_errors_only_for_protobuf_witness :
  recv.prebindBody plans.jsonAssignText plans.protoDecodeText
    plans.plainTarget recv.bodyJSON [Byte.x7b]
  = (None, recv.mkTarget false "{" [recv.bodyJSON])
  /\ recv.prebindBody plans.jsonAssignText plans.protoDecodeText
       plans.plainTarget recv.bodyForm [Byte.x7b]
     = (None, plans.plainTarget).
Proof.
  destruct (prebindBody_errors_only_for_protobuf string plans.jsonAssignText
              plans.protoDecodeText plans.plainTarget recv.bodyJSON [Byte.x7b])
    as [_ [Hj _]].
  destruct (prebindBody_errors_only_for_protobuf string plans.jsonAssignText
              plans.protoDecodeText plans.plainTarget recv.bodyForm [Byte.x7b])
    as [_ [_ Hf]].
  split; [apply Hj; reflexivity | apply Hf; discriminate].
Defined.

(** X16: [initParams] keeps the plan as it is but for the names and the
    errors: the flags, the fields in their order with their selectors and
    struct fields, and for each annotation its source, key and required
    flag; and it leaves every annotation with its four errors set, each made
    by the factory of the field from the name of the annotation. *)
Theorem initParams_keeps_plan :
  forall (name : recv.paramInfo -> recv.in_ -> string) (r : recv.receiver),
    (recv.hasQuery (recv.initParams name r), recv.hasCookie (recv.initParams name r),
     recv.hasPath (recv.initParams name r), recv.hasBody (recv.initParams name r),
     recv.hasVd (recv.initParams name r))
    = (recv.hasQuery r, recv.hasCookie r, recv.hasPath r, recv.hasBody r,
       recv.hasVd r)
    /\ map (fun p => (recv.fieldSelector p, recv.structField p,
                      map (fun t => (recv.paramIn t, recv.paramName t,
                                     recv.required t)) (recv.tagInfos p)))
           (recv.params (recv.initParams name r))
       = map (fun p => (recv.fieldSelector p, recv.structField p,
                        map (fun t => (recv.paramIn t, recv.paramName t,
                                       recv.required t)) (recv.tagInfos p)))
             (recv.params r)
    /\ Forall
         (fun p =>
            Forall
              (fun t =>
                 recv.requiredError t
                 = Some (recv.bindErrFactory p (recv.namePath t)
                           "missing required parameter")
                 /\ recv.typeError t
                    = Some (recv.bindErrFactory p (recv.namePath t)
                              "parameter type does not match binding data")
                 /\ recv.cannotError t
                    = Some (recv.bindErrFactory p (recv.namePath t)
                              "parameter cannot be bound")
                 /\ recv.contentTypeError t
                    = Some (recv.bindErrFactory p (recv.namePath t)
                              "does not support binding to the content type body"))
              (recv.tagInfos p))
         (recv.params (recv.initParams name r)).
Proof.
  intros name r. split; [reflexivity |]. split.
  - unfold recv.initParams. cbn [recv.params]. rewrite map_map.
    apply map_ext. intros p. cbn. rewrite map_map. reflexivity.
  - unfold recv.initParams. cbn [recv.params].
    apply Forall_map, Forall_forall. intros p _. cbn.
    apply Forall_map, Forall_forall. intros t _. cbn. auto.
Qed.

(** X17: with distinct selectors and annotations not yet named, the name
    [initParams] gives an annotation is the key of the field for the source
    of the annotation, preceded, when the field has an ancestor that is not
    embedded, by the key of the nearest such ancestor and a dot. *)
Theorem initParams_names_nearest_ancestor :
  forall (name : recv.paramInfo -> recv.in_ -> string) (r : recv.receiver),
    NoDup (map recv.fieldSelector (recv.params r)) ->
    Forall (fun p => Forall (fun t => recv.namePath t = "") (recv.tagInfos p))
           (recv.params r) ->
    map (fun p => map recv.namePath (recv.tagInfos p))
        (recv.params (recv.initParams name r))
    = map (fun p =>
             map (fun t =>
                    keptPrefix (recv.keyOf name (recv.params r))
                               (recv.paramIn t) (recv.ancestors p)
                    ++ name p (recv.paramIn t))
                 (recv.tagInfos p))
          (recv.params r).
Proof.
  intros name r Hnd Hfresh. unfold recv.initParams. cbn [recv.params].
  rewrite map_map. apply map_ext_in. intros p Hp. cbn. rewrite map_map.
  apply map_ext_in. intros t Ht. cbn.
  rewrite Forall_forall in Hfresh. specialize (Hfresh p Hp).
  rewrite Forall_forall in Hfresh. rewrite (Hfresh t Ht).
  rewrite walkPaths_nearest. unfold keptPrefix, recv.ancestors.
  rewrite (nearestNamed_ext _ (recv.keyOf name (recv.params r)) (recv.paramIn t) _
             (fun fs => collectNames_keyOf name (recv.params r) fs
                          (recv.paramIn t) Hnd)).
  reflexivity.
Qed.

Lemma initParams_names_nearest_ancestor_witness :
  map (fun p => map recv.namePath (recv.tagInfos p))
      (recv.params (recv.initParams recv.keyName plans.jsonPlan))
  = [["X"]; ["X.a"]; ["X.B"]; ["X.C"]; ["X.d"]; ["y"]; ["Z"]].
Proof.
  assert (Hnd : NoDup (map recv.fieldSelector (recv.params plans.jsonPlan))).
  { cbn. repeat constructor; cbn; intuition discriminate. }
  assert (Hfresh :
    Forall (fun p => Forall (fun t => recv.namePath t = "") (recv.tagInfos p))
           (recv.params plans.jsonPlan)) by (repeat constructor).
  exact (initParams_names_nearest_ancestor recv.keyName plans.jsonPlan
           Hnd Hfresh).
Defined.

Lemma initTagInfo_qualified_iff_witness :
  recv.namePath
    (recv.initTagInfo recv.keyName
       (recv.collectNames recv.keyName (recv.params plans.jsonPlan))
       (plans.field "X.A" "A" false [plans.tag recv.json "a" false])
       (fst (recv.FieldSelector_Split "X.A")) (plans.tag recv.json "a" false))
  = recv.qualifiedName recv.keyName (recv.params plans.jsonPlan)
      (plans.field "X.A" "A" false [plans.tag recv.json "a" false]) recv.json.
Proof.
  assert (Hnd : NoDup (map recv.fieldSelector (recv.params plans.jsonPlan))).
  { cbn. repeat constructor; cbn; intuition discriminate. }
  apply (proj2 (initTagInfo_qualified_iff recv.keyName
                  (recv.params plans.jsonPlan)
                  (plans.field "X.A" "A" false [plans.tag recv.json "a" false])
                  (plans.tag recv.json "a" false) Hnd eq_refl)).
  cbn. lia.
Defined.


(* ================================================================= *)
(** * Further properties: the validator functions *)

Section ValidatorFacts.
Import validator.
Variable F : Type.
Variable eqF : F -> F -> bool.


End ValidatorFacts.


(** X21: the [time] function with one argument gives what it gives with the
    layout name "RFC3339" as second argument, error text included. *)
Theorem timeFunc_default_layout :
  forall (F : Type) (time_Parse : validator.Layout -> string -> option error)
         (a0 : validator.value F),
    validator.timeFunc F time_Parse [a0]
    = validator.timeFunc F time_Parse [a0; validator.VString "RFC3339"].
Proof.
  intros F time_Parse a0. destruct a0; reflexivity.
Qed.

(** X22: the [phone] function with the number alone gives what it gives
    with the region "CN", and with the empty region, as second argument. *)
Theorem phoneFunc_default_region :
  forall (F PhoneNumber : Type)
         (phonenumbers_Parse : string -> string -> PhoneNumber + error)
         (IsValidNumber : PhoneNumber -> bool) (a0 : validator.value F),
    validator.phoneFunc F PhoneNumber phonenumbers_Parse IsValidNumber [a0]
    = validator.phoneFunc F PhoneNumber phonenumbers_Parse IsValidNumber
        [a0; validator.VString "CN"]
    /\ validator.phoneFunc F PhoneNumber phonenumbers_Parse IsValidNumber [a0]
       = validator.phoneFunc F PhoneNumber phonenumbers_Parse IsValidNumber
           [a0; validator.VString ""].
Proof.
  intros F PhoneNumber parse valid a0. destruct a0; split; reflexivity.
Qed.


(** X23: the [time] function looks at the parser's error only to see whether
    there is one: with two parsers that accept the same texts it returns the
    same result, so the text of a parse error never reaches the caller. *)
Theorem timeFunc_hides_parse_error :
  forall (F : Type) (parse1 parse2 : validator.Layout -> string -> option error)
         (args : list (validator.value F)),
    (forall layout v, parse1 layout v = None <-> parse2 layout v = None) ->
    validator.timeFunc F parse1 args = validator.timeFunc F parse2 args.
Proof.
  intros F parse1 parse2 args Hsame.
  assert (Hcase : forall layout v,
            (parse1 layout v = None /\ parse2 layout v = None)
            \/ (exists e1 e2, parse1 layout v = Some e1
                              /\ parse2 layout v = Some e2)).
  { intros layout v. specialize (Hsame layout v).
    destruct (parse1 layout v) as [e1 |], (parse2 layout v) as [e2 |].
    - right. eauto.
    - destruct Hsame as [_ H]. specialize (H eq_refl). discriminate.
    - destruct Hsame as [H _]. specialize (H eq_refl). discriminate.
    - left. auto. }
  destruct args as [| a0 [| a1 [| a2 rest]]]; try reflexivity.
  - destruct a0 as [v | | |]; try reflexivity. cbn.
    destruct (Hcase validator.RFC3339 v) as [[-> ->] | [e1 [e2 [-> ->]]]];
      reflexivity.
  - destruct a0 as [v | | |]; try reflexivity.
    destruct a1 as [identifier | | |]; try reflexivity. cbn.
    destruct (validator.timeLayoutMap identifier) as [layout |];
      [| reflexivity].
    destruct (Hcase layout v) as [[-> ->] | [e1 [e2 [-> ->]]]]; reflexivity.
Qed.

Lemma timeFunc_hides_parse_error_witness :
  validator.timeFunc Z sample3.terseParse
    [validator.VString "noon"; validator.VString "Kitchen"]
  = validator.timeFunc Z sample3.wordyParse
      [validator.VString "noon"; validator.VString "Kitchen"].
Proof.
  apply (timeFunc_hides_parse_error Z sample3.terseParse sample3.wordyParse).
  intros layout v. unfold sample3.terseParse, sample3.wordyParse.
  destruct (v =? "3:04PM"); split; intros H; try reflexivity; discriminate.
Defined.
